(** * Quiz supply pipeline of QuizGameUsingLLM

    A shallow embedding of the Flask handler [generate_quiz] of
    [src/WebAPI.py] (and of its Lambda variant in
    [src/lambda_package/WebAPIboto3.py]) together with the properties of
    the rate limiter, the daily budget, the quiz stock and the serving
    pool.

    Modelling choices.
    - The module-level globals [request_timestamps], [api_call_count],
      [last_reset_date], [QUIZ_CACHE] and [SERVING_POOL] form the record
      [State]; the handler is a function from the state before a request
      to the response, the lines printed and the state after.
    - The constants [MINUTE_LIMIT], [MINUTE_WINDOW], [DAILY_API_LIMIT] and
      [SET_SIZE] are the fields of [Config]; [source_config] holds the
      values written in the source.
    - What the handler reads from the outside world during one request is
      the record [Env]: [time.time()], [date.today()], the outcome of the
      call to the generative model and the draws of [random.shuffle].
    - [time.time()] is a float.  Every float is a rational and the
      difference of two clock readings taken within a factor two of each
      other is exact, so timestamps are rationals ([Q]) and
      [current_time - t] is the exact difference.
    - A date is its ordinal day number ([Z]); [D + 1] is the next day.
    - [json.loads] is a library function: it is a parameter
      [json_loads], [None] standing for a raised exception.  A parsed quiz
      is a value of the abstract type [Quiz].
    - [QUIZ_CACHE.copy()] makes a fresh list, and the quiz objects are
      never mutated, so lists are plain values. *)

From Stdlib Require Import List ZArith QArith Bool Ascii String Lia Lqa Permutation PeanoNat.
Import ListNotations.

Open Scope Z_scope.

(** ** Constants *)

Record Config : Type := mkConfig {
  MINUTE_LIMIT : Z;      (* line 34 *)
  MINUTE_WINDOW : Z;     (* line 35 *)
  DAILY_API_LIMIT : Z;   (* line 39 *)
  SET_SIZE : Z           (* line 46 *)
}.

Definition source_config : Config :=
  {| MINUTE_LIMIT := 55; MINUTE_WINDOW := 60;
     DAILY_API_LIMIT := 500; SET_SIZE := 5 |}.

(** The constants of the end-to-end scenario: a target of 2 quizzes and a
    budget of 10 calls a day, the rate limiter as in the source. *)
Definition scenario_config : Config :=
  {| MINUTE_LIMIT := 55; MINUTE_WINDOW := 60;
     DAILY_API_LIMIT := 10; SET_SIZE := 2 |}.

(** ** Python list and string primitives used by the handler *)

(** [l.pop()]: the last element and the list without it; [None] on the
    empty list (where Python raises [IndexError]). *)
Definition pop {A : Type} (l : list A) : option (A * list A) :=
  match rev l with
  | [] => None
  | x :: r => Some (x, rev r)
  end.

(** [l[i] = v], for an index inside the list. *)
Fixpoint set_item {A : Type} (l : list A) (i : nat) (v : A) : list A :=
  match l, i with
  | [], _ => []
  | _ :: t, O => v :: t
  | h :: t, S i' => h :: set_item t i' v
  end.

(** [x[i], x[j] = x[j], x[i]], for indexes inside the list. *)
Definition swap {A : Type} (x : list A) (i j : nat) : list A :=
  match nth_error x i, nth_error x j with
  | Some a, Some b => set_item (set_item x i b) j a
  | _, _ => x
  end.

(** [random.shuffle(x)] as CPython writes it:
    [for i in reversed(range(1, len(x))): j = randbelow(i + 1); swap i j].
    The draw for index [i] is [randbelow i], reduced into [0 .. i]. *)
Fixpoint shuffle_from {A : Type} (randbelow : nat -> nat) (i : nat)
  (x : list A) : list A :=
  match i with
  | O => x
  | S i' => shuffle_from randbelow i' (swap x i (randbelow i mod S i))
  end.

Definition shuffle {A : Type} (randbelow : nat -> nat) (x : list A) : list A :=
  shuffle_from randbelow (Nat.pred (List.length x)) x.

(** [s.find(c)]: the lowest index of [c] in [s], or [-1]. *)
Fixpoint find (c : ascii) (s : string) : Z :=
  match s with
  | EmptyString => -1
  | String a s' =>
      if Ascii.eqb a c then 0
      else let r := find c s' in if r =? -1 then -1 else r + 1
  end.

(** [s.rfind(c)]: the highest index of [c] in [s], or [-1]. *)
Fixpoint rfind (c : ascii) (s : string) : Z :=
  match s with
  | EmptyString => -1
  | String a s' =>
      let r := rfind c s' in
      if r =? -1 then (if Ascii.eqb a c then 0 else -1) else r + 1
  end.

(** [s[a:b]] for [0 <= a] and [0 <= b <= len(s)], the only slices the
    handler takes; empty when [b <= a]. *)
Definition slice (s : string) (a b : Z) : string :=
  substring (Z.to_nat a) (Z.to_nat (b - a)) s.

(** Lines 86 to 93: the candidate JSON text of a raw response, or [None]
    where the handler raises [ValueError]. *)
Definition extract_json (raw_text : string) : option string :=
  let json_start := find "{"%char raw_text in
  let json_end := rfind "}"%char raw_text + 1 in
  if negb (json_start =? -1) && negb (json_end =? 0)
  then Some (slice raw_text json_start json_end)
  else None.

(** ** What one request reads from the outside world *)

(** Outcome of [model.start_chat(history=[]).send_message(prompt)] followed
    by [response.text]. *)
Inductive Upstream : Type :=
| SendRaised                    (* send_message raised: [response] unbound *)
| TextRaised                    (* [response] bound, [response.text] raises *)
| Text (raw_text : string).     (* [response.text] *)

Record Env : Type := mkEnv {
  current_time : Q;             (* time.time(), line 55 *)
  today : Z;                    (* date.today(), line 70 *)
  upstream : Upstream;          (* lines 83-84 *)
  randbelow : nat -> nat        (* draws of random.shuffle, line 109 *)
}.

(** ** Responses and printed lines *)

(** The exception caught at line 99. *)
Inductive Exn : Type :=
| NoJsonFound        (* ValueError raised at line 93 *)
| JSONDecodeError    (* raised by json.loads at line 91 *)
| UpstreamError.     (* raised by the call to the model at line 83 *)

Inductive Response (Quiz : Type) : Type :=
| Json200 (quiz : Quiz)     (* jsonify(quiz), lines 66, 97 and 113 *)
| RateLimit429              (* line 59 *)
| Exception500 (e : Exn)    (* line 102 *)
| Exhausted429              (* line 105 *)
| Unhandled500              (* an exception that leaves the handler *)
| NotInitialized500.        (* WebAPIboto3.py, line 98 *)

Arguments Json200 {Quiz} quiz.
Arguments RateLimit429 {Quiz}.
Arguments Exception500 {Quiz} e.
Arguments Exhausted429 {Quiz}.
Arguments Unhandled500 {Quiz}.
Arguments NotInitialized500 {Quiz}.

Definition status_code {Quiz : Type} (r : Response Quiz) : Z :=
  match r with
  | Json200 _ => 200
  | RateLimit429 | Exhausted429 => 429
  | Exception500 _ | Unhandled500 | NotInitialized500 => 500
  end.

(** One constructor per [print] of the handler. *)
Inductive Log : Type :=
| LogRateLimit                              (* line 58 *)
| LogServeFromPool (remaining : Z)          (* line 64 *)
| LogPoolEmpty                              (* line 68 *)
| LogNewDay                                 (* line 74 *)
| LogRestock                                (* line 77 *)
| LogOrder (count : Z)                      (* line 80 *)
| LogAdded (size : nat)                     (* line 96 *)
| LogError (e : Exn) (raw : option string)  (* lines 100-101 *)
| LogPrepareCourse                          (* line 107 *)
| LogServeFirst.                            (* line 112 *)

(** ** The handler of [src/WebAPI.py] *)

Module WebAPI.

Section Handler.

Variable Quiz : Type.
Variable json_loads : string -> option Quiz.
Variable cfg : Config.

(** The module-level globals (lines 36 to 45). *)
Record State : Type := mkState {
  request_timestamps : list Q;
  api_call_count : Z;
  last_reset_date : Z;
  QUIZ_CACHE : list Quiz;
  SERVING_POOL : list Quiz
}.

(** The globals when the module has been loaded on day [start_date]. *)
Definition initial_state (start_date : Z) : State :=
  mkState [] 0 start_date [] [].

Definition set_timestamps (s : State) (ts : list Q) : State :=
  mkState ts (api_call_count s) (last_reset_date s) (QUIZ_CACHE s)
    (SERVING_POOL s).

Definition set_budget (s : State) (n d : Z) : State :=
  mkState (request_timestamps s) n d (QUIZ_CACHE s) (SERVING_POOL s).

Definition set_cache (s : State) (c : list Quiz) : State :=
  mkState (request_timestamps s) (api_call_count s) (last_reset_date s) c
    (SERVING_POOL s).

Definition set_pool (s : State) (p : list Quiz) : State :=
  mkState (request_timestamps s) (api_call_count s) (last_reset_date s)
    (QUIZ_CACHE s) p.

(** What a request yields: the HTTP response, the lines printed, and the
    globals afterwards. *)
Record Result : Type := mkResult {
  response : Response Quiz;
  stdout : list Log;
  state : State
}.

(** The test [current_time - t < MINUTE_WINDOW] of line 56. *)
Definition fresh (now t : Q) : bool :=
  if Qlt_le_dec (now - t) (inject_Z (MINUTE_WINDOW cfg)) then true else false.

(** Line 56: [[t for t in request_timestamps if current_time - t < MINUTE_WINDOW]]. *)
Definition purge (now : Q) (stamps : list Q) : list Q :=
  filter (fresh now) stamps.

(** Lines 78 to 102, once [api_call_count] has been incremented: the call
    to the model, the extraction and the parse. *)
Definition generate (env : Env) (log : list Log) (s : State) : Result :=
  match upstream env with
  | SendRaised =>
      mkResult (Exception500 UpstreamError)
        (log ++ [LogError UpstreamError None]) s
  | TextRaised =>
      (* line 84 raises; line 101 reads [response.text] again and raises *)
      mkResult Unhandled500 log s
  | Text raw_text =>
      match extract_json raw_text with
      | None =>
          mkResult (Exception500 NoJsonFound)
            (log ++ [LogError NoJsonFound (Some raw_text)]) s
      | Some json_string =>
          match json_loads json_string with
          | None =>
              mkResult (Exception500 JSONDecodeError)
                (log ++ [LogError JSONDecodeError (Some raw_text)]) s
          | Some new_quiz =>
              let s := set_cache s (QUIZ_CACHE s ++ [new_quiz]) in
              mkResult (Json200 new_quiz)
                (log ++ [LogAdded (List.length (QUIZ_CACHE s))]) s
          end
      end
  end.

(** Lines 104 to 113: serve from a pool rebuilt from the stock. *)
Definition batch (env : Env) (log : list Log) (s : State) : Result :=
  match QUIZ_CACHE s with
  | [] => mkResult Exhausted429 log s
  | _ :: _ =>
      let pool := shuffle (randbelow env) (QUIZ_CACHE s) in
      match pop pool with
      | Some (quiz, rest) =>
          mkResult (Json200 quiz) (log ++ [LogPrepareCourse; LogServeFirst])
            (set_pool s rest)
      | None =>
          (* IndexError: pop from empty list *)
          mkResult Unhandled500 (log ++ [LogPrepareCourse]) (set_pool s pool)
      end
  end.

(** Lines 71 to 73: a new day resets the budget. *)
Definition rollover (today : Z) (s : State) : State :=
  if last_reset_date s <? today then set_budget s 0 today else s.

(** Lines 63 to 113: the supply logic, run once the request is admitted. *)
Definition supply (env : Env) (s : State) : Result :=
  match pop (SERVING_POOL s) with
  | Some (quiz, rest) =>
      mkResult (Json200 quiz)
        [LogServeFromPool (Z.of_nat (List.length (SERVING_POOL s)) - 1)]
        (set_pool s rest)
  | None =>
      let new_day := last_reset_date s <? today env in
      let s := rollover (today env) s in
      let log := LogPoolEmpty :: (if new_day then [LogNewDay] else []) in
      if (Z.of_nat (List.length (QUIZ_CACHE s)) <? SET_SIZE cfg)
         && (api_call_count s <? DAILY_API_LIMIT cfg)
      then
        let s := set_budget s (api_call_count s + 1) (last_reset_date s) in
        generate env (log ++ [LogRestock; LogOrder (api_call_count s)]) s
      else
        batch env log s
  end.

(** Lines 51 to 113. *)
Definition generate_quiz (env : Env) (s : State) : Result :=
  let stamps := purge (current_time env) (request_timestamps s) in
  if MINUTE_LIMIT cfg <=? Z.of_nat (List.length stamps) then
    mkResult RateLimit429 [LogRateLimit] (set_timestamps s stamps)
  else
    supply env (set_timestamps s (stamps ++ [current_time env])).

(** The handler on a sequence of requests: the result of each one. *)
Fixpoint run (envs : list Env) (s : State) : list Result :=
  match envs with
  | [] => []
  | env :: envs' =>
      let r := generate_quiz env s in r :: run envs' (state r)
  end.

(** The globals after a sequence of requests. *)
Definition exec (envs : list Env) (s : State) : State :=
  fold_left (fun s env => state (generate_quiz env s)) envs s.

End Handler.

Arguments request_timestamps {Quiz} s.
Arguments api_call_count {Quiz} s.
Arguments last_reset_date {Quiz} s.
Arguments QUIZ_CACHE {Quiz} s.
Arguments SERVING_POOL {Quiz} s.
Arguments response {Quiz} r.
Arguments stdout {Quiz} r.
Arguments state {Quiz} r.
Arguments initial_state {Quiz} start_date.
Arguments rollover {Quiz} today s.
Arguments supply {Quiz} json_loads cfg env s.
Arguments generate_quiz {Quiz} json_loads cfg env s.
Arguments run {Quiz} json_loads cfg envs s.
Arguments exec {Quiz} json_loads cfg envs s.

End WebAPI.

(** ** The handler of [src/lambda_package/WebAPIboto3.py] *)

Module WebAPIboto3.

(** Lines 92 to 175.  The global [GOOGLE_AI_STUDIO_API_KEY] is [None]
    until [setup_ai_model] has stored the key (line 52).  After the guard
    of lines 96 to 98 the body (lines 101 to 175) is the body of
    [WebAPI.generate_quiz] line for line; only the prompt text, which the
    model does not look at, differs. *)
Definition generate_quiz {Quiz : Type} (json_loads : string -> option Quiz)
  (cfg : Config) (GOOGLE_AI_STUDIO_API_KEY : option string) (env : Env)
  (s : WebAPI.State Quiz) : WebAPI.Result Quiz :=
  match GOOGLE_AI_STUDIO_API_KEY with
  | None => WebAPI.mkResult Quiz NotInitialized500 [] s
  | Some _ => WebAPI.generate_quiz json_loads cfg env s
  end.

End WebAPIboto3.

(** ** Vocabulary of the properties *)

(** The request was turned away by the rate limiter. *)
Definition rate_limited {Quiz : Type} (r : WebAPI.Result Quiz) : Prop :=
  WebAPI.response r = RateLimit429.

(** The request placed an order with the model (line 80 was printed). *)
Definition ordered {Quiz : Type} (r : WebAPI.Result Quiz) : Prop :=
  exists n, In (LogOrder n) (WebAPI.stdout r).

(** The request built a new serving pool (line 107 was printed). *)
Definition batched {Quiz : Type} (r : WebAPI.Result Quiz) : Prop :=
  In LogPrepareCourse (WebAPI.stdout r).

(** The request drew an item from the serving pool (line 64 or line 112
    was printed, next to the [pop]). *)
Definition popped {Quiz : Type} (r : WebAPI.Result Quiz) : Prop :=
  (exists n, In (LogServeFromPool n) (WebAPI.stdout r))
  \/ In LogServeFirst (WebAPI.stdout r).

(** The request appended an item to the stock (line 96 was printed). *)
Definition appended {Quiz : Type} (r : WebAPI.Result Quiz) : Prop :=
  exists n, In (LogAdded n) (WebAPI.stdout r).

Definition is_order (l : Log) : bool :=
  match l with LogOrder _ => true | _ => false end.

(** [ordered], as a test. *)
Definition orderedb {Quiz : Type} (r : WebAPI.Result Quiz) : bool :=
  existsb is_order (WebAPI.stdout r).

(** The number of requests of a run that placed an order with the model:
    the budget reservations that succeeded. *)
Definition reservations {Quiz : Type} (rs : list (WebAPI.Result Quiz)) : nat :=
  List.length (filter orderedb rs).

(** The value of [api_call_count] once lines 70 to 74 have run. *)
Definition count_after_rollover {Quiz : Type} (env : Env)
  (s : WebAPI.State Quiz) : Z :=
  if WebAPI.last_reset_date s <? today env then 0 else WebAPI.api_call_count s.

(** The model answers [env] with a text from which the quiz [q] is
    extracted and parsed. *)
Definition generation_succeeds {Quiz : Type}
  (json_loads : string -> option Quiz) (env : Env) (q : Quiz) : Prop :=
  exists raw_text json_string,
    upstream env = Text raw_text
    /\ extract_json raw_text = Some json_string
    /\ json_loads json_string = Some q.

(** The quizzes served by a run, in the order of the requests. *)
Definition served {Quiz : Type} (rs : list (WebAPI.Result Quiz)) : list Quiz :=
  flat_map
    (fun r => match WebAPI.response r with Json200 q => [q] | _ => [] end) rs.

(** Each clock reading is more than [w] seconds after the one before. *)
Fixpoint spaced_apart (w : Q) (times : list Q) : Prop :=
  match times with
  | [] => True
  | t :: later =>
      match later with
      | [] => True
      | t' :: _ => (w < t' - t)%Q /\ spaced_apart w later
      end
  end.

(** Any two of the clock readings are less than [w] seconds apart. *)
Definition within_window (w : Q) (times : list Q) : Prop :=
  forall t t', In t times -> In t' times -> (t' - t < w)%Q.

(** The budget during day [D]: the counter holds the number [n] of orders
    placed on that day, or the window of day [D] is not open yet. *)
Definition budget_on {Quiz : Type} (D : Z) (n : Z) (s : WebAPI.State Quiz) : Prop :=
  (WebAPI.last_reset_date s = D /\ WebAPI.api_call_count s = n)
  \/ (WebAPI.last_reset_date s < D /\ n = 0).

(** The character [c] occurs in [s]. *)
Fixpoint occurs (c : ascii) (s : string) : Prop :=
  match s with
  | EmptyString => False
  | String a s' => a = c \/ occurs c s'
  end.

(** ** A concrete instance, used to exercise the theorems *)

Module Sample.

(** A stand-in for [json.loads]: it accepts the texts that start with an
    opening brace and keeps them as they are. *)
Definition loads (s : string) : option string :=
  match s with
  | String "{"%char _ => Some s
  | _ => None
  end.

Definition tiny_config : Config :=
  {| MINUTE_LIMIT := 2; MINUTE_WINDOW := 60;
     DAILY_API_LIMIT := 2; SET_SIZE := 5 |}.

Definition env_at (now : Q) (day : Z) (up : Upstream) : Env :=
  mkEnv now day up (fun i => i).

Definition quiz_a : string := "{a}".
Definition quiz_b : string := "{b}".

(** Globals with two retained timestamps, a spent budget of 2, a stock of
    two quizzes and an empty pool. *)
Definition stocked : WebAPI.State string :=
  WebAPI.mkState string [0%Q; 1%Q] 2 0 [quiz_a; quiz_b] [].

(** Two requests on day 0 that the model fails to answer. *)
Definition failing_day : list Env :=
  [env_at 0 0 SendRaised; env_at 1 0 TextRaised].

(** Globals with a pool of two quizzes drawn from the stock, on day 0. *)
Definition pooled : WebAPI.State string :=
  WebAPI.mkState string [] 1 0 [quiz_a; quiz_b] [quiz_a; quiz_b].

(** Two requests within the same minute, then a third. *)
Definition two_quick : list Env :=
  [env_at 0 0 SendRaised; env_at 1 0 SendRaised].

(** Five requests on day 3, answered with a quiz each. *)
Definition five_requests : list Env :=
  [env_at 0 3 (Text "Here it is: {a} enjoy");
   env_at 1 3 (Text quiz_b);
   env_at 2 3 (Text quiz_a);
   env_at 3 3 (Text quiz_a);
   env_at 4 3 (Text quiz_a)].

End Sample.

(** ** Vocabulary of the further properties *)

(** The budget holds between nothing spent and everything spent. *)
Definition budget_in_range {Quiz : Type} (cfg : Config)
  (s : WebAPI.State Quiz) : Prop :=
  0 <= WebAPI.api_call_count s <= DAILY_API_LIMIT cfg.

(** The clock readings of the requests of a run that the rate limiter
    admitted, in the order of the requests. *)
Fixpoint admitted_times {Quiz : Type} (json_loads : string -> option Quiz)
  (cfg : Config) (envs : list Env) (s : WebAPI.State Quiz) : list Q :=
  match envs with
  | [] => []
  | env :: envs' =>
      let r := WebAPI.generate_quiz json_loads cfg env s in
      match WebAPI.response r with
      | RateLimit429 => []
      | _ => [current_time env]
      end ++ admitted_times json_loads cfg envs' (WebAPI.state r)
  end.

(** The readings of [times] that are less than [MINUTE_WINDOW] seconds
    before [now]. *)
Definition in_window (cfg : Config) (now : Q) (times : list Q) : list Q :=
  filter (WebAPI.fresh cfg now) times.

(** * Properties *)

Import WebAPI.

(** ** The model on concrete inputs *)

Example pop_takes_the_last : pop [1; 2; 3] = Some (3, [1; 2]).
Proof. reflexivity. Qed.

Example find_is_leftmost : find "{"%char "ab{c{" = 2.
Proof. reflexivity. Qed.

Example rfind_is_rightmost : rfind "}"%char "a}b}c" = 3.
Proof. reflexivity. Qed.

Example extract_json_spans_the_braces :
  extract_json "Sure: {q}y} bye" = Some "{q}y}"%string.
Proof. reflexivity. Qed.

Example extract_json_of_crossed_braces : extract_json "}{" = Some ""%string.
Proof. reflexivity. Qed.

Example extract_json_needs_both_braces :
  extract_json "{" = None /\ extract_json "}" = None.
Proof. split; reflexivity. Qed.

Example shuffle_with_zero_draws : shuffle (fun _ => 0%nat) [1; 2; 3] = [2; 3; 1].
Proof. reflexivity. Qed.

Example five_requests_are_served :
  map (@response string)
    (run Sample.loads scenario_config Sample.five_requests (initial_state 0))
  = [Json200 "{a}"%string; Json200 Sample.quiz_b; Json200 Sample.quiz_b;
     Json200 Sample.quiz_a; Json200 Sample.quiz_b].
Proof. reflexivity. Qed.

Example rejected_at_the_limit :
  response (generate_quiz Sample.loads Sample.tiny_config
              (Sample.env_at 2 0 SendRaised) Sample.stocked) = RateLimit429.
Proof. reflexivity. Qed.

(** ** The list and string primitives *)


Lemma pop_snoc {A : Type} (l : list A) (x : A) : pop (l ++ [x]) = Some (x, l).
Proof.
  unfold pop. rewrite rev_unit, rev_involutive. reflexivity.
Qed.

Lemma pop_nil_iff {A : Type} (l : list A) : pop l = None <-> l = [].
Proof.
  split.
  - destruct l as [|a l] using rev_ind; [reflexivity|].
    rewrite pop_snoc. discriminate.
  - intros ->. reflexivity.
Qed.

Lemma pop_Some_iff {A : Type} (l r : list A) (x : A) :
  pop l = Some (x, r) <-> l = r ++ [x].
Proof.
  split.
  - destruct l as [|a l _] using rev_ind; [discriminate|].
    rewrite pop_snoc. intros [= -> ->]. reflexivity.
  - intros ->. apply pop_snoc.
Qed.

Lemma pop_length {A : Type} (l r : list A) (x : A) :
  pop l = Some (x, r) -> List.length l = S (List.length r).
Proof.
  intros H. apply pop_Some_iff in H. subst l.
  rewrite length_app. simpl. lia.
Qed.

Lemma set_item_length {A : Type} (l : list A) (i : nat) (v : A) :
  List.length (set_item l i v) = List.length l.
Proof.
  revert i. induction l as [|h t IH]; intros [|i]; simpl; auto.
Qed.

Lemma set_item_Permutation {A : Type} (l : list A) (i : nat) (a v : A) :
  nth_error l i = Some a -> Permutation (v :: l) (a :: set_item l i v).
Proof.
  revert i. induction l as [|h t IH]; intros [|i]; simpl; try discriminate.
  - intros [= ->]. apply perm_swap.
  - intros H. rewrite perm_swap. rewrite (IH _ H). apply perm_swap.
Qed.

Lemma set_item_keeps {A : Type} (l : list A) (i j : nat) (b : A) :
  nth_error l j = Some b -> nth_error (set_item l i b) j = Some b.
Proof.
  revert i j. induction l as [|h t IH]; intros [|i] [|j]; simpl;
    try discriminate; auto.
Qed.

Lemma swap_Permutation {A : Type} (x : list A) (i j : nat) :
  Permutation (swap x i j) x.
Proof.
  unfold swap.
  destruct (nth_error x i) as [a|] eqn:Hi; [|reflexivity].
  destruct (nth_error x j) as [b|] eqn:Hj; [|reflexivity].
  apply (Permutation_cons_inv (a := b)). symmetry.
  rewrite (set_item_Permutation x i a b Hi).
  apply set_item_Permutation. apply set_item_keeps. exact Hj.
Qed.

Lemma shuffle_from_Permutation {A : Type} (rb : nat -> nat) (i : nat)
  (x : list A) : Permutation (shuffle_from rb i x) x.
Proof.
  revert x. induction i as [|i IH]; intros x; simpl; [reflexivity|].
  rewrite IH. apply swap_Permutation.
Qed.

Lemma shuffle_Permutation {A : Type} (rb : nat -> nat) (x : list A) :
  Permutation (shuffle rb x) x.
Proof. apply shuffle_from_Permutation. Qed.

Lemma shuffle_length {A : Type} (rb : nat -> nat) (x : list A) :
  List.length (shuffle rb x) = List.length x.
Proof. apply Permutation_length, shuffle_Permutation. Qed.

Lemma find_absent (c : ascii) (s : string) : ~ occurs c s -> find c s = -1.
Proof.
  induction s as [|a s IH]; simpl; intros H; [reflexivity|].
  destruct (Ascii.eqb_spec a c) as [->|Hne]; [tauto|].
  rewrite IH by tauto. reflexivity.
Qed.

Lemma rfind_absent (c : ascii) (s : string) : ~ occurs c s -> rfind c s = -1.
Proof.
  induction s as [|a s IH]; simpl; intros H; [reflexivity|].
  rewrite IH by tauto. simpl.
  destruct (Ascii.eqb_spec a c) as [->|Hne]; [tauto|reflexivity].
Qed.

Lemma find_lower_bound (c : ascii) (s : string) : -1 <= find c s.
Proof.
  induction s as [|a s IH]; simpl; [lia|].
  destruct (Ascii.eqb a c); [lia|].
  destruct (Z.eqb_spec (find c s) (-1)); lia.
Qed.

Lemma rfind_lower_bound (c : ascii) (s : string) : -1 <= rfind c s.
Proof.
  induction s as [|a s IH]; simpl; [lia|].
  destruct (Z.eqb_spec (rfind c s) (-1)); [destruct (Ascii.eqb a c)|]; lia.
Qed.

Lemma find_present (c : ascii) (s : string) : occurs c s -> 0 <= find c s.
Proof.
  induction s as [|a s IH]; simpl; [tauto|].
  destruct (Ascii.eqb_spec a c) as [->|Hne]; [lia|].
  intros [H|H]; [congruence|]. specialize (IH H).
  destruct (Z.eqb_spec (find c s) (-1)); lia.
Qed.

Lemma rfind_present (c : ascii) (s : string) : occurs c s -> 0 <= rfind c s.
Proof.
  induction s as [|a s IH]; simpl; [tauto|].
  pose proof (rfind_lower_bound c s).
  destruct (Z.eqb_spec (rfind c s) (-1)) as [E|E]; [|lia].
  destruct (Ascii.eqb_spec a c) as [->|Hne]; [lia|].
  intros [H'|H']; [congruence|]. specialize (IH H'). lia.
Qed.

(** The handler finds a candidate span exactly when both braces occur. *)
Lemma extract_json_None_iff (raw : string) :
  extract_json raw = None <-> ~ occurs "{"%char raw \/ ~ occurs "}"%char raw.
Proof.
  unfold extract_json. split.
  - destruct (Z.eqb_spec (find "{"%char raw) (-1)) as [E1|E1]; simpl.
    + intros _. left. intros H. apply find_present in H. lia.
    + destruct (Z.eqb_spec (rfind "}"%char raw + 1) 0) as [E2|E2]; simpl;
        [|discriminate].
      intros _. right. intros H. apply rfind_present in H. lia.
  - intros [H|H].
    + rewrite (find_absent _ _ H). reflexivity.
    + rewrite (rfind_absent _ _ H). simpl. rewrite andb_false_r. reflexivity.
Qed.

(** A batch built from a stock that is not empty has a last item. *)
Lemma pop_shuffle {Quiz : Type} (rb : nat -> nat) (q : Quiz) (l : list Quiz) :
  exists quiz rest, pop (shuffle rb (q :: l)) = Some (quiz, rest).
Proof.
  destruct (pop (shuffle rb (q :: l))) as [[quiz rest]|] eqn:E; [eauto|].
  apply pop_nil_iff in E. apply (f_equal (@List.length Quiz)) in E.
  rewrite shuffle_length in E. discriminate.
Qed.

(** ** Tactics for the case analysis of the handler *)

(** Unfolds the handler. *)
Ltac expose :=
  unfold generate_quiz, supply, generate, batch, rollover, count_after_rollover
    in *.

(** Splits on every test the handler makes. *)
Ltac split_tests :=
  repeat match goal with
    | |- context [if ?b then _ else _] => destruct b eqn:?
    | |- context [match ?x with _ => _ end] => destruct x eqn:?
    end;
  cbn [response stdout state request_timestamps api_call_count last_reset_date
       QUIZ_CACHE SERVING_POOL set_timestamps set_budget set_cache set_pool]
    in *.

Ltac branches := expose; split_tests.

(** Closes the branches whose printed lines contradict a hypothesis. *)
Ltac absurd_log :=
  match goal with
  | H : In _ _ |- _ => cbn in H; intuition discriminate
  | H : exists _, In _ _ |- _ => destruct H as [? H]; cbn in H; intuition discriminate
  end.

(** Settles a goal or a hypothesis on which lines were printed. *)
Ltac log_false :=
  unfold appended, popped, ordered, batched in *; cbn [In app stdout] in *;
  repeat match goal with
    | H : _ /\ _ |- _ => destruct H
    | H : exists _, _ |- _ => destruct H
    | H : _ \/ _ |- _ => destruct H
    | H : False |- _ => destruct H
    end;
  try discriminate.

Ltac in_list := solve [repeat first [left; reflexivity | right]].

Ltac log_true :=
  unfold appended, popped, ordered, batched; cbn [In app stdout];
  first [in_list | eexists; in_list | left; eexists; in_list | right; in_list].

(** The branch in which a batch of a non-empty stock has no last item
    cannot be taken. *)
Ltac no_empty_batch :=
  exfalso;
  match goal with
  | E : pop (shuffle ?rb (?q :: ?l)) = None |- _ =>
      let E' := fresh in
      destruct (pop_shuffle rb q l) as (? & ? & E'); congruence
  end.

(** ** The handler, one request *)

Section OneRequest.

Variable Quiz : Type.
Variable json_loads : string -> option Quiz.
Variable cfg : Config.

Local Abbreviation handler := (generate_quiz json_loads cfg).

Lemma supply_never_rate_limits (env : Env) (s : State Quiz) :
  response (supply json_loads cfg env s) <> RateLimit429.
Proof. branches; discriminate. Qed.

Lemma supply_timestamps (env : Env) (s : State Quiz) :
  request_timestamps (state (supply json_loads cfg env s)) = request_timestamps s.
Proof. branches; reflexivity. Qed.

Lemma handler_rejects (env : Env) (s : State Quiz) :
  MINUTE_LIMIT cfg <= Z.of_nat (List.length (purge cfg (current_time env) (request_timestamps s))) ->
  handler env s
  = mkResult Quiz RateLimit429 [LogRateLimit]
      (set_timestamps Quiz s (purge cfg (current_time env) (request_timestamps s))).
Proof.
  intros H. unfold generate_quiz.
  destruct (Z.leb_spec (MINUTE_LIMIT cfg)
    (Z.of_nat (List.length (purge cfg (current_time env) (request_timestamps s)))));
    [reflexivity|lia].
Qed.

Lemma handler_admits (env : Env) (s : State Quiz) :
  Z.of_nat (List.length (purge cfg (current_time env) (request_timestamps s))) < MINUTE_LIMIT cfg ->
  handler env s
  = supply json_loads cfg env
      (set_timestamps Quiz s
         (purge cfg (current_time env) (request_timestamps s) ++ [current_time env])).
Proof.
  intros H. unfold generate_quiz.
  destruct (Z.leb_spec (MINUTE_LIMIT cfg)
    (Z.of_nat (List.length (purge cfg (current_time env) (request_timestamps s)))));
    [lia|reflexivity].
Qed.

Lemma rate_limited_iff (env : Env) (s : State Quiz) :
  rate_limited (handler env s)
  <-> MINUTE_LIMIT cfg <= Z.of_nat (List.length (purge cfg (current_time env) (request_timestamps s))).
Proof.
  unfold rate_limited. split.
  - intros H.
    destruct (Z.le_gt_cases (MINUTE_LIMIT cfg)
      (Z.of_nat (List.length (purge cfg (current_time env) (request_timestamps s)))))
      as [Hle|Hgt]; [exact Hle|].
    rewrite handler_admits in H by lia.
    now apply supply_never_rate_limits in H.
  - intros H. rewrite handler_rejects by exact H. reflexivity.
Qed.

(** C8. A request rejected by the rate limiter gets the 429 answer of line
    59 and changes nothing but the purge of line 56: the timestamps
    afterwards are the purged old ones, without the time of the rejected
    request appended, and the stock, the pool, the budget counter and
    the budget date are the ones before the request. *)
Theorem rate_limited_rejection_is_atomic (env : Env) (s : State Quiz) :
  rate_limited (handler env s) ->
  status_code (response (handler env s)) = 429
  /\ request_timestamps (state (handler env s))
     = purge cfg (current_time env) (request_timestamps s)
  /\ QUIZ_CACHE (state (handler env s)) = QUIZ_CACHE s
  /\ SERVING_POOL (state (handler env s)) = SERVING_POOL s
  /\ api_call_count (state (handler env s)) = api_call_count s
  /\ last_reset_date (state (handler env s)) = last_reset_date s.
Proof.
  intros H. apply rate_limited_iff in H.
  rewrite handler_rejects by exact H. cbn. repeat split.
Qed.

(** C7. A request that builds a serving pool leaves the stock exactly as it
    was; the pool is a shuffled copy of it, whose last item is served. *)
Theorem batching_preserves_stock (env : Env) (s : State Quiz) :
  batched (handler env s) ->
  QUIZ_CACHE (state (handler env s)) = QUIZ_CACHE s
  /\ QUIZ_CACHE s <> []
  /\ exists quiz,
       response (handler env s) = Json200 quiz
       /\ Permutation (SERVING_POOL (state (handler env s)) ++ [quiz]) (QUIZ_CACHE s).
Proof.
  unfold batched. branches; intros H; try absurd_log; try no_empty_batch.
  all: match goal with E : pop _ = Some _, C : QUIZ_CACHE _ = _ :: _ |- _ =>
         apply pop_Some_iff in E; rewrite C;
         repeat split;
         [discriminate
         | eexists; split; [reflexivity | rewrite <- E; apply shuffle_Permutation]]
       end.
Qed.

(** C5. A request never both appends to the stock and pops from the pool.
    It does exactly one of four things: it grows the stock by one item
    and serves that item, the pool untouched; it serves the last item of
    the pool it found; it serves the last item of a pool newly built from
    the stock; or it fails, the stock and the pool untouched. *)
Theorem stock_pool_exclusivity (env : Env) (s : State Quiz) :
  let r := handler env s in
  ~ (appended r /\ popped r)
  /\ ((exists q,
         response r = Json200 q
         /\ QUIZ_CACHE (state r) = QUIZ_CACHE s ++ [q]
         /\ SERVING_POOL (state r) = SERVING_POOL s
         /\ appended r /\ ~ popped r)
      \/ (exists q,
         response r = Json200 q
         /\ QUIZ_CACHE (state r) = QUIZ_CACHE s
         /\ SERVING_POOL s = SERVING_POOL (state r) ++ [q]
         /\ popped r /\ ~ appended r)
      \/ (exists q,
         response r = Json200 q
         /\ QUIZ_CACHE (state r) = QUIZ_CACHE s
         /\ SERVING_POOL s = []
         /\ Permutation (SERVING_POOL (state r) ++ [q]) (QUIZ_CACHE s)
         /\ popped r /\ ~ appended r)
      \/ (status_code (response r) <> 200
         /\ QUIZ_CACHE (state r) = QUIZ_CACHE s
         /\ SERVING_POOL (state r) = SERVING_POOL s
         /\ ~ appended r /\ ~ popped r)).
Proof.
  cbv zeta. branches; try no_empty_batch.
  all: split; [intros [Ha Hp]; log_false|].
  all: repeat match goal with
         | E : pop _ = Some _ |- _ => apply pop_Some_iff in E
         | E : pop _ = None |- _ => apply pop_nil_iff in E
         end.
  all: try (right; right; right; cbn;
            repeat split; solve [discriminate | intros ?; log_false]).
  all: try (left; eexists; repeat split; [log_true | intros ?; log_false]).
  all: try (right; left; eexists; repeat split;
            [eassumption | log_true | intros ?; log_false]).
  all: right; right; left; eexists; repeat split;
       [ assumption
       | match goal with
         | C : QUIZ_CACHE _ = _ :: _, E : shuffle _ _ = _ |- _ =>
             rewrite C, <- E; apply shuffle_Permutation
         end
       | log_true | intros ?; log_false ].
Qed.

(** The requests that place an order with the model are the admitted ones
    that find the pool empty, the stock below its target and, after the
    rollover, the budget not spent. *)
Lemma ordered_iff (env : Env) (s : State Quiz) :
  ordered (handler env s)
  <-> ~ rate_limited (handler env s)
      /\ SERVING_POOL s = []
      /\ Z.of_nat (List.length (QUIZ_CACHE s)) < SET_SIZE cfg
      /\ count_after_rollover env s < DAILY_API_LIMIT cfg.
Proof.
  unfold rate_limited. split.
  - branches; intros H; try (log_false; fail).
    all: repeat match goal with
           | E : pop _ = None |- _ => apply pop_nil_iff in E
           | E : _ && _ = true |- _ => apply andb_prop in E; destruct E
           end.
    all: repeat split; try discriminate; try assumption; lia.
  - branches; intros (Hr & Hp & Hc & Hb); try (exfalso; congruence);
      try log_true.
    all: repeat match goal with
           | E : pop _ = Some _ |- _ => apply pop_Some_iff in E
           | E : _ && _ = false |- _ => apply andb_false_iff in E; destruct E
           end.
    all: try match goal with
             | E : SERVING_POOL _ = ?l ++ _ |- _ =>
                 rewrite Hp in E; destruct l; discriminate
             end.
    all: exfalso;
         match goal with
         | E : QUIZ_CACHE _ = _, H : _ < SET_SIZE _ |- _ => rewrite E in H
         end; lia.
Qed.

Lemma orderedb_spec (r : Result Quiz) : orderedb r = true <-> ordered r.
Proof.
  unfold orderedb, ordered. rewrite existsb_exists. split.
  - intros ([] & Hin & Hx); try discriminate. eauto.
  - intros (n & Hin). exists (LogOrder n). split; [exact Hin|reflexivity].
Qed.

(** The budget after a request: one more than after the rollover when an
    order was placed, the value after the rollover on the other requests
    that found the pool empty, untouched otherwise. *)
Lemma budget_after (env : Env) (s : State Quiz) :
  let r := handler env s in
  (ordered r ->
     api_call_count (state r) = count_after_rollover env s + 1
     /\ last_reset_date (state r) = Z.max (last_reset_date s) (today env))
  /\ (~ ordered r -> ~ rate_limited r -> SERVING_POOL s = [] ->
     api_call_count (state r) = count_after_rollover env s
     /\ last_reset_date (state r) = Z.max (last_reset_date s) (today env))
  /\ (rate_limited r \/ SERVING_POOL s <> [] ->
     api_call_count (state r) = api_call_count s
     /\ last_reset_date (state r) = last_reset_date s).
Proof.
  cbv zeta. unfold rate_limited. branches; try no_empty_batch.
  all: repeat match goal with
         | E : pop _ = Some _ |- _ => apply pop_Some_iff in E
         | E : pop _ = None |- _ => apply pop_nil_iff in E
         end.
  all: split; [|split]; intros; try (log_false; fail); try (split; lia).
  all: try (exfalso;
            match goal with
            | E : SERVING_POOL _ = ?l ++ _, H : SERVING_POOL _ = [] |- _ =>
                rewrite H in E; destruct l; discriminate
            end).
  all: try (exfalso; match goal with H : ~ ordered _ |- _ => apply H end;
            log_true).
  all: try (exfalso; congruence).
  all: match goal with
       | H : _ \/ _ |- _ => destruct H as [H|H]; try discriminate
       end.
  all: exfalso; congruence.
Qed.

(** The stock after a request is the stock before it, with the new quiz at
    its end when the request placed an order and the generation
    succeeded. *)
Lemma stock_after (env : Env) (s : State Quiz) :
  QUIZ_CACHE (state (handler env s)) = QUIZ_CACHE s
  \/ (ordered (handler env s)
      /\ exists q, generation_succeeds json_loads env q
           /\ response (handler env s) = Json200 q
           /\ QUIZ_CACHE (state (handler env s)) = QUIZ_CACHE s ++ [q]).
Proof.
  unfold generation_succeeds. branches; auto.
  all: right; split; [log_true|]; eauto 10.
Qed.

(** The stock never passes the target in one request. *)
Lemma stock_bound_step (env : Env) (s : State Quiz) :
  Z.of_nat (List.length (QUIZ_CACHE s)) <= SET_SIZE cfg ->
  Z.of_nat (List.length (QUIZ_CACHE (state (handler env s)))) <= SET_SIZE cfg.
Proof.
  intros H. destruct (stock_after env s) as [-> | (Ho & q & _ & _ & ->)];
    [exact H|].
  apply ordered_iff in Ho. rewrite length_app. cbn. lia.
Qed.

(** C4. A request that places an order and receives a text without an
    opening brace or without a closing brace fails with the [ValueError]
    of line 93 (status 500), prints the raw text, leaves the stock and
    the pool as they were, and keeps the budget counter one above its
    value after the rollover: the order is paid for. *)
Theorem parse_failure_isolation (env : Env) (s : State Quiz) (raw : string) :
  ordered (handler env s) ->
  upstream env = Text raw ->
  ~ occurs "{"%char raw \/ ~ occurs "}"%char raw ->
  response (handler env s) = Exception500 NoJsonFound
  /\ status_code (response (handler env s)) = 500
  /\ In (LogError NoJsonFound (Some raw)) (stdout (handler env s))
  /\ QUIZ_CACHE (state (handler env s)) = QUIZ_CACHE s
  /\ List.length (QUIZ_CACHE (state (handler env s))) = List.length (QUIZ_CACHE s)
  /\ SERVING_POOL (state (handler env s)) = SERVING_POOL s
  /\ api_call_count (state (handler env s)) = count_after_rollover env s + 1.
Proof.
  intros Ho Hup Hbr. apply extract_json_None_iff in Hbr.
  destruct (budget_after env s) as (Hb & _ & _). specialize (Hb Ho).
  destruct Hb as [Hb _]. rewrite Hb. clear Hb.
  revert Ho. expose. rewrite Hup, Hbr. split_tests; intros Ho;
    try (log_false; fail).
  all: match goal with E : pop _ = None |- _ => apply pop_nil_iff in E end.
  all: repeat split; try congruence; log_true.
Qed.

(** What the three serving branches do to the globals. *)
Lemma handler_pops (env : Env) (s : State Quiz) (rest : list Quiz) (q : Quiz) :
  ~ rate_limited (handler env s) ->
  SERVING_POOL s = rest ++ [q] ->
  response (handler env s) = Json200 q
  /\ popped (handler env s)
  /\ ~ ordered (handler env s)
  /\ ~ batched (handler env s)
  /\ SERVING_POOL (state (handler env s)) = rest
  /\ QUIZ_CACHE (state (handler env s)) = QUIZ_CACHE s
  /\ api_call_count (state (handler env s)) = api_call_count s
  /\ last_reset_date (state (handler env s)) = last_reset_date s.
Proof.
  intros Hr Hp. apply pop_Some_iff in Hp. revert Hr. unfold rate_limited.
  expose. cbn [SERVING_POOL set_timestamps]. rewrite Hp.
  split_tests; intros Hr; [congruence|].
  repeat split; try log_true; intros ?; log_false.
Qed.

Lemma handler_generates (env : Env) (s : State Quiz) (q : Quiz) :
  ordered (handler env s) ->
  generation_succeeds json_loads env q ->
  response (handler env s) = Json200 q
  /\ SERVING_POOL (state (handler env s)) = []
  /\ QUIZ_CACHE (state (handler env s)) = QUIZ_CACHE s ++ [q]
  /\ api_call_count (state (handler env s)) = count_after_rollover env s + 1
  /\ last_reset_date (state (handler env s)) = Z.max (last_reset_date s) (today env).
Proof.
  intros Ho (raw & js & Hup & Hex & Hjs).
  destruct (budget_after env s) as (Hb & _ & _). specialize (Hb Ho).
  destruct Hb as [Hb Hd]. rewrite Hb, Hd. clear Hb Hd.
  revert Ho. expose. rewrite Hup, Hex, Hjs. split_tests; intros Ho;
    try (log_false; fail).
  all: match goal with E : pop _ = None |- _ => apply pop_nil_iff in E end.
  all: repeat split; congruence.
Qed.

Lemma handler_batches (env : Env) (s : State Quiz) :
  ~ rate_limited (handler env s) ->
  ~ ordered (handler env s) ->
  SERVING_POOL s = [] ->
  QUIZ_CACHE s <> [] ->
  batched (handler env s)
  /\ popped (handler env s)
  /\ QUIZ_CACHE (state (handler env s)) = QUIZ_CACHE s
  /\ api_call_count (state (handler env s)) = count_after_rollover env s
  /\ last_reset_date (state (handler env s)) = Z.max (last_reset_date s) (today env)
  /\ exists quiz,
       response (handler env s) = Json200 quiz
       /\ shuffle (randbelow env) (QUIZ_CACHE s)
          = SERVING_POOL (state (handler env s)) ++ [quiz].
Proof.
  intros Hr Ho Hp Hc.
  destruct (budget_after env s) as (_ & Hb & _). specialize (Hb Ho Hr Hp).
  destruct Hb as [Hb Hd]. rewrite Hb, Hd. clear Hb Hd.
  revert Hr Ho. unfold rate_limited. branches; intros Hr Ho;
    try no_empty_batch; try congruence.
  all: try (exfalso; apply Ho; log_true).
  all: repeat match goal with
         | E : pop _ = Some _ |- _ => apply pop_Some_iff in E
         end.
  all: try match goal with
         | E : SERVING_POOL _ = ?l ++ _ |- _ =>
             rewrite Hp in E; destruct l; discriminate
         end.
  all: repeat split; try log_true.
  all: eexists; split; [reflexivity|congruence].
Qed.

(** The timestamps after a request: the purged ones, followed by the time
    of the request unless it was rejected. *)
Lemma timestamps_after (env : Env) (s : State Quiz) :
  request_timestamps (state (handler env s))
  = if MINUTE_LIMIT cfg
       <=? Z.of_nat (List.length (purge cfg (current_time env) (request_timestamps s)))
    then purge cfg (current_time env) (request_timestamps s)
    else purge cfg (current_time env) (request_timestamps s) ++ [current_time env].
Proof.
  unfold generate_quiz.
  destruct (MINUTE_LIMIT cfg <=? _); [reflexivity|].
  rewrite supply_timestamps. reflexivity.
Qed.

Lemma admitted_is_recorded (env : Env) (s : State Quiz) :
  ~ rate_limited (handler env s) ->
  request_timestamps (state (handler env s))
  = purge cfg (current_time env) (request_timestamps s) ++ [current_time env].
Proof.
  intros H. rewrite rate_limited_iff in H. rewrite timestamps_after.
  destruct (Z.leb_spec (MINUTE_LIMIT cfg)
    (Z.of_nat (List.length (purge cfg (current_time env) (request_timestamps s)))));
    [lia|reflexivity].
Qed.

Lemma rejected_is_not_recorded (env : Env) (s : State Quiz) :
  rate_limited (handler env s) ->
  state (handler env s)
  = set_timestamps Quiz s (purge cfg (current_time env) (request_timestamps s)).
Proof.
  intros H. rewrite rate_limited_iff in H. rewrite handler_rejects by exact H.
  reflexivity.
Qed.

End OneRequest.

(** ** The rate limiter over a sequence of requests *)

Section RateLimiter.

Variable Quiz : Type.
Variable json_loads : string -> option Quiz.
Variable cfg : Config.

Local Abbreviation handler := (generate_quiz json_loads cfg).
Local Abbreviation window := (inject_Z (MINUTE_WINDOW cfg)).

Lemma exec_cons (env : Env) (envs : list Env) (s : State Quiz) :
  exec json_loads cfg (env :: envs) s
  = exec json_loads cfg envs (state (handler env s)).
Proof. reflexivity. Qed.

Lemma exec_snoc (env : Env) (envs : list Env) (s : State Quiz) :
  exec json_loads cfg (envs ++ [env]) s
  = state (handler env (exec json_loads cfg envs s)).
Proof. unfold exec. rewrite fold_left_app. reflexivity. Qed.

Lemma run_length (envs : list Env) (s : State Quiz) :
  List.length (run json_loads cfg envs s) = List.length envs.
Proof.
  revert s. induction envs as [|e envs IH]; intros s; cbn; [reflexivity|].
  now rewrite IH.
Qed.

Lemma purge_keeps_fresh (now : Q) (stamps : list Q) :
  (forall t, In t stamps -> (now - t < window)%Q) ->
  purge cfg now stamps = stamps.
Proof.
  induction stamps as [|t ts IH]; intros H; cbn; [reflexivity|].
  unfold fresh at 1.
  destruct (Qlt_le_dec (now - t) window) as [_|Hge].
  - f_equal. apply IH. intros t' Ht'. apply H. now right.
  - exfalso. specialize (H t (or_introl eq_refl)). lra.
Qed.

Lemma purge_drops_stale (now : Q) (stamps : list Q) :
  (forall t, In t stamps -> (window <= now - t)%Q) ->
  purge cfg now stamps = [].
Proof.
  induction stamps as [|t ts IH]; intros H; cbn; [reflexivity|].
  unfold fresh at 1.
  destruct (Qlt_le_dec (now - t) window) as [Hlt|_].
  - exfalso. specialize (H t (or_introl eq_refl)). lra.
  - apply IH. intros t' Ht'. apply H. now right.
Qed.

(** While the retained timestamps and the coming requests are all within
    one window and their number stays within the limit, every request is
    admitted and recorded. *)
Lemma burst_is_admitted (envs : list Env) (s : State Quiz) :
  within_window window (request_timestamps s ++ map current_time envs) ->
  Z.of_nat (List.length (request_timestamps s) + List.length envs) <= MINUTE_LIMIT cfg ->
  Forall (fun r => ~ rate_limited r) (run json_loads cfg envs s)
  /\ request_timestamps (exec json_loads cfg envs s)
     = request_timestamps s ++ map current_time envs.
Proof.
  revert s. induction envs as [|e envs IH]; intros s Hw Hn.
  - cbn. rewrite app_nil_r. split; [constructor|reflexivity].
  - assert (Hp : purge cfg (current_time e) (request_timestamps s)
                 = request_timestamps s).
    { apply purge_keeps_fresh. intros t Ht. apply Hw.
      - apply in_or_app. now left.
      - apply in_or_app. right. now left. }
    assert (Ha : ~ rate_limited (handler e s)).
    { rewrite rate_limited_iff, Hp. cbn [List.length] in Hn. lia. }
    pose proof (admitted_is_recorded Quiz json_loads cfg e s Ha) as Hs.
    rewrite Hp in Hs.
    destruct (IH (state (handler e s))) as [IH1 IH2].
    + rewrite Hs, <- app_assoc. exact Hw.
    + rewrite Hs, length_app. cbn [List.length] in *. lia.
    + split.
      * cbn [run]. constructor; assumption.
      * rewrite exec_cons, IH2, Hs, <- app_assoc. reflexivity.
Qed.

(** Requests more than one window apart are admitted one after the other,
    each finding no retained timestamp. *)
Lemma spaced_is_admitted (envs : list Env) (s : State Quiz) :
  0 < MINUTE_LIMIT cfg ->
  match envs with
  | [] => True
  | e :: _ =>
      forall t, In t (request_timestamps s) -> (window <= current_time e - t)%Q
  end ->
  spaced_apart window (map current_time envs) ->
  Forall (fun r => ~ rate_limited r) (run json_loads cfg envs s).
Proof.
  intros Hl. revert s. induction envs as [|e envs IH]; intros s Hs Hsp.
  - constructor.
  - assert (Hp : purge cfg (current_time e) (request_timestamps s) = []).
    { apply purge_drops_stale. exact Hs. }
    assert (Ha : ~ rate_limited (handler e s)).
    { rewrite rate_limited_iff, Hp. cbn. lia. }
    pose proof (admitted_is_recorded Quiz json_loads cfg e s Ha) as Hts.
    rewrite Hp in Hts. cbn [app] in Hts.
    cbn [run]. constructor; [exact Ha|].
    apply IH.
    + destruct envs as [|e' envs']; [exact I|].
      rewrite Hts. intros t [<-|[]].
      cbn in Hsp. destruct Hsp as [Hlt _]. lra.
    + cbn in Hsp. destruct envs as [|e' envs']; [exact I|]. apply Hsp.
Qed.

(** C2. From a limiter that retains no timestamp: when [MINUTE_LIMIT + 1]
    requests arrive at times that are pairwise less than [MINUTE_WINDOW]
    apart, the first [MINUTE_LIMIT] are admitted and the last one is
    rejected with the 429 answer; and when each request arrives more than
    [MINUTE_WINDOW] after the one before, none is rejected, however many
    there are. *)
Theorem rate_limiter_admission (s : State Quiz) :
  request_timestamps s = [] ->
  (forall (envs : list Env) (env : Env),
     Z.of_nat (List.length envs) = MINUTE_LIMIT cfg ->
     within_window window (map current_time (envs ++ [env])) ->
     Forall (fun r => ~ rate_limited r) (run json_loads cfg envs s)
     /\ rate_limited (handler env (exec json_loads cfg envs s))
     /\ status_code (response (handler env (exec json_loads cfg envs s))) = 429)
  /\ (forall envs : list Env,
      0 < MINUTE_LIMIT cfg ->
      spaced_apart window (map current_time envs) ->
      Forall (fun r => ~ rate_limited r) (run json_loads cfg envs s)).
Proof.
  intros Hs. split.
  - intros envs env Hn Hw. rewrite map_app in Hw. cbn [map] in Hw.
    destruct (burst_is_admitted envs s) as [Hadm Hts].
    + rewrite Hs. cbn [app]. intros t t' Ht Ht'.
      apply Hw; apply in_or_app; now left.
    + rewrite Hs. cbn [List.length]. lia.
    + rewrite Hs in Hts. cbn [app] in Hts.
      assert (Hrej : rate_limited (handler env (exec json_loads cfg envs s))).
      { rewrite rate_limited_iff, Hts, purge_keeps_fresh.
        - rewrite length_map. lia.
        - intros t Ht. apply Hw.
          + apply in_or_app. now left.
          + apply in_or_app. right. now left. }
      split; [exact Hadm|]. split; [exact Hrej|].
      unfold rate_limited in Hrej. rewrite Hrej. reflexivity.
  - intros envs Hl Hsp. apply spaced_is_admitted; [exact Hl| |exact Hsp].
    destruct envs; [exact I|]. rewrite Hs. intros t [].
Qed.

End RateLimiter.

(** ** The stock and the budget over a sequence of requests *)

Section Supply.

Variable Quiz : Type.
Variable json_loads : string -> option Quiz.
Variable cfg : Config.

Local Abbreviation handler := (generate_quiz json_loads cfg).
Local Abbreviation stock_size s := (Z.of_nat (List.length (QUIZ_CACHE s))).

(** C9. The stock stays within [SET_SIZE]: a request keeps the bound, a
    request changes the stock only by placing an order, an order is placed
    only while the stock is strictly below [SET_SIZE], and so every state
    reached from the initial globals has a stock of at most [SET_SIZE]
    items (5 in the source). *)
Theorem stock_size_bound :
  (forall (env : Env) (s : State Quiz),
     stock_size s <= SET_SIZE cfg ->
     stock_size (state (handler env s)) <= SET_SIZE cfg)
  /\ (forall (env : Env) (s : State Quiz),
     QUIZ_CACHE (state (handler env s)) <> QUIZ_CACHE s ->
     ordered (handler env s))
  /\ (forall (env : Env) (s : State Quiz),
     ordered (handler env s) -> stock_size s < SET_SIZE cfg)
  /\ (0 <= SET_SIZE cfg ->
      forall (start_date : Z) (envs : list Env),
        stock_size (exec json_loads cfg envs (initial_state start_date))
        <= SET_SIZE cfg).
Proof.
  split; [|split; [|split]].
  - intros env s. apply stock_bound_step.
  - intros env s H.
    destruct (stock_after Quiz json_loads cfg env s) as [E|[Ho _]];
      [contradiction|exact Ho].
  - intros env s H. apply ordered_iff in H. tauto.
  - intros H0 d envs.
    induction envs as [|e envs IH] using rev_ind; [exact H0|].
    rewrite exec_snoc. apply stock_bound_step. exact IH.
Qed.

Lemma budget_on_step (D n : Z) (env : Env) (s : State Quiz) :
  budget_on D n s ->
  today env = D ->
  budget_on D (n + Z.of_nat (reservations [handler env s]))
    (state (handler env s)).
Proof.
  intros Hb Ht. unfold reservations. cbn [filter].
  pose proof (budget_after Quiz json_loads cfg env s) as (Ho & Hn & Hu).
  pose proof (orderedb_spec Quiz (handler env s)) as Hspec.
  unfold count_after_rollover in *. rewrite Ht in *.
  destruct (orderedb (handler env s)) eqn:E; cbn [List.length].
  - destruct (Ho (proj1 Hspec eq_refl)) as [Hc Hd].
    unfold budget_on in *. rewrite Hc, Hd.
    destruct (Z.ltb_spec (last_reset_date s) D); lia.
  - assert (Hno : ~ ordered (handler env s)).
    { intros H. apply Hspec in H. congruence. }
    replace (n + Z.of_nat 0) with n by lia.
    destruct (response (handler env s)) eqn:Er;
      try (destruct (SERVING_POOL s) eqn:Ep;
           [ destruct Hn as [Hc Hd];
             [exact Hno | unfold rate_limited; congruence | reflexivity |];
             unfold budget_on in *; rewrite Hc, Hd;
             destruct (Z.ltb_spec (last_reset_date s) D); lia
           | destruct Hu as [Hc Hd]; [right; discriminate|];
             unfold budget_on in *; rewrite Hc, Hd; exact Hb ]).
    destruct Hu as [Hc Hd]; [left; exact Er|].
    unfold budget_on in *. rewrite Hc, Hd. exact Hb.
Qed.

Lemma reservations_cons (r : Result Quiz) (rs : list (Result Quiz)) :
  Z.of_nat (reservations (r :: rs))
  = Z.of_nat (reservations [r]) + Z.of_nat (reservations rs).
Proof.
  unfold reservations. cbn [filter].
  destruct (orderedb r); cbn [List.length]; lia.
Qed.

Lemma budget_on_run (D n : Z) (envs : list Env) (s : State Quiz) :
  budget_on D n s ->
  Forall (fun e => today e = D) envs ->
  budget_on D (n + Z.of_nat (reservations (run json_loads cfg envs s)))
    (exec json_loads cfg envs s).
Proof.
  revert n s. induction envs as [|e envs IH]; intros n s Hb Hd.
  - cbn. replace (n + 0) with n by lia. exact Hb.
  - apply Forall_cons_iff in Hd. destruct Hd as [He Hd'].
    cbn [run]. rewrite reservations_cons, exec_cons, Z.add_assoc.
    apply IH; [|exact Hd']. apply budget_on_step; [exact Hb|exact He].
Qed.

(** C3. Take globals [s0] whose budget window for day [D] has just opened
    or is still to open ([budget_on D 0 s0]) and any requests of day [D]
    that place exactly [DAILY_API_LIMIT] orders between them.  Afterwards
    the counter equals the limit and the date is [D]; a further request on
    day [D] places no order and leaves the counter and the date as they
    are; a request on day [D + 1] that is admitted and finds the pool
    empty and the stock below its target places an order, leaves the
    counter at 1 and sets the date to [D + 1]. *)
Theorem budget_exhaustion_and_rollover (D : Z) (s0 : State Quiz)
  (envs : list Env) :
  0 < DAILY_API_LIMIT cfg ->
  budget_on D 0 s0 ->
  Forall (fun e => today e = D) envs ->
  Z.of_nat (reservations (run json_loads cfg envs s0)) = DAILY_API_LIMIT cfg ->
  let s := exec json_loads cfg envs s0 in
  api_call_count s = DAILY_API_LIMIT cfg
  /\ last_reset_date s = D
  /\ (forall env : Env,
        today env = D ->
        ~ ordered (handler env s)
        /\ api_call_count (state (handler env s)) = DAILY_API_LIMIT cfg
        /\ last_reset_date (state (handler env s)) = D)
  /\ (forall env : Env,
        today env = D + 1 ->
        ~ rate_limited (handler env s) ->
        SERVING_POOL s = [] ->
        stock_size s < SET_SIZE cfg ->
        ordered (handler env s)
        /\ api_call_count (state (handler env s)) = 1
        /\ last_reset_date (state (handler env s)) = D + 1).
Proof.
  intros Hpos Hb0 Hd Hn s.
  pose proof (budget_on_run D 0 envs s0 Hb0 Hd) as Hb.
  rewrite Hn in Hb. fold s in Hb.
  assert (Hs : last_reset_date s = D /\ api_call_count s = DAILY_API_LIMIT cfg).
  { destruct Hb as [[? ?]|[? ?]]; [split; lia|lia]. }
  destruct Hs as [Hdate Hcount].
  split; [exact Hcount|]. split; [exact Hdate|]. split.
  - intros env Ht.
    assert (Hno : ~ ordered (handler env s)).
    { rewrite ordered_iff. unfold count_after_rollover.
      rewrite Hdate, Ht, Z.ltb_irrefl. lia. }
    split; [exact Hno|].
    pose proof (budget_on_step D (DAILY_API_LIMIT cfg) env s) as Hstep.
    assert (Hz : reservations [handler env s] = 0%nat).
    { unfold reservations. cbn [filter].
      destruct (orderedb (handler env s)) eqn:E; [|reflexivity].
      apply orderedb_spec in E. contradiction. }
    rewrite Hz in Hstep.
    destruct Hstep as [[? ?]|[? ?]]; [left; split; assumption|exact Ht| |]; lia.
  - intros env Ht Hadm Hpool Hstock.
    assert (Ho : ordered (handler env s)).
    { rewrite ordered_iff. unfold count_after_rollover.
      rewrite Hdate, Ht.
      destruct (Z.ltb_spec D (D + 1)); [tauto|lia]. }
    split; [exact Ho|].
    destruct (budget_after Quiz json_loads cfg env s) as (Hb' & _ & _).
    destruct (Hb' Ho) as [Hc Hd']. unfold count_after_rollover in Hc.
    rewrite Hdate, Ht in *.
    destruct (Z.ltb_spec D (D + 1)); lia.
Qed.




(** Admitted requests that find enough items in the pool draw them from
    its end, one each, and touch nothing else. *)
Lemma drain (envs : list Env) (s : State Quiz) :
  (List.length envs <= List.length (SERVING_POOL s))%nat ->
  Forall (fun r => ~ rate_limited r) (run json_loads cfg envs s) ->
  Forall (fun r => popped r /\ ~ batched r /\ ~ ordered r)
    (run json_loads cfg envs s)
  /\ SERVING_POOL s
     = SERVING_POOL (exec json_loads cfg envs s)
       ++ rev (served (run json_loads cfg envs s))
  /\ List.length (served (run json_loads cfg envs s)) = List.length envs
  /\ QUIZ_CACHE (exec json_loads cfg envs s) = QUIZ_CACHE s.
Proof.
  revert s. induction envs as [|e envs IH]; intros s Hlen Hadm.
  - cbn. rewrite app_nil_r. repeat split. constructor.
  - cbn [run] in *. apply Forall_cons_iff in Hadm. destruct Hadm as [Ha Hadm].
    destruct (SERVING_POOL s) as [|q rest _] eqn:Ep using rev_ind;
      [cbn in Hlen; lia|].
    destruct (handler_pops Quiz json_loads cfg e s rest q Ha Ep)
      as (Hresp & Hpop & Hno & Hnb & Hpool & Hstock & _).
    destruct (IH (state (handler e s))) as (IH1 & IH2 & IH3 & IH4).
    + rewrite Hpool. rewrite length_app in Hlen. cbn in Hlen. lia.
    + exact Hadm.
    + rewrite exec_cons. unfold served in *. cbn [flat_map]. rewrite Hresp.
      cbn [app rev]. repeat split.
      * constructor; [tauto|exact IH1].
      * rewrite app_assoc, <- IH2, Hpool. reflexivity.
      * cbn [List.length]. rewrite IH3. reflexivity.
      * rewrite IH4. exact Hstock.
Qed.


End Supply.

(** ** The end-to-end scenario *)

Section Scenario.

Variable Quiz : Type.
Variable json_loads : string -> option Quiz.

Local Abbreviation handler := (generate_quiz json_loads scenario_config).

Lemma purge_length (cfg : Config) (now : Q) (stamps : list Q) :
  (List.length (purge cfg now stamps) <= List.length stamps)%nat.
Proof.
  unfold purge. induction stamps as [|t ts IH]; cbn; [lia|].
  destruct (fresh cfg now t); cbn; lia.
Qed.

Lemma stamps_grow_by_one (cfg : Config) (env : Env) (s : State Quiz) :
  (List.length (request_timestamps (state (generate_quiz json_loads cfg env s)))
   <= S (List.length (request_timestamps s)))%nat.
Proof.
  rewrite timestamps_after.
  pose proof (purge_length cfg (current_time env) (request_timestamps s)).
  destruct (MINUTE_LIMIT cfg <=? _); [|rewrite length_app; cbn]; lia.
Qed.

Lemma few_stamps_admitted (cfg : Config) (env : Env) (s : State Quiz) :
  Z.of_nat (List.length (request_timestamps s)) < MINUTE_LIMIT cfg ->
  ~ rate_limited (generate_quiz json_loads cfg env s).
Proof.
  intros H. rewrite rate_limited_iff.
  pose proof (purge_length cfg (current_time env) (request_timestamps s)).
  lia.
Qed.

Lemma scenario_admits (env : Env) (s : State Quiz) :
  (List.length (request_timestamps s) < 55)%nat ->
  ~ rate_limited (handler env s).
Proof.
  intros H. apply few_stamps_admitted.
  change (MINUTE_LIMIT scenario_config) with 55. lia.
Qed.

(** C1. With a target of 2 and a budget of 10, from the initial globals,
    five requests on one day whose generations succeed go as follows.
    Requests 1 and 2 each place an order and serve the new quiz: the stock
    is [q1] then [q1; q2], the counter 1 then 2, the pool stays empty.
    Request 3 places no order: it builds the pool as a shuffled copy of
    the stock and pops its last item, leaving one item in the pool and the
    stock as it was.  Request 4 pops that item and leaves the pool empty.
    Request 5 builds the pool again from the same two-item stock. *)
Theorem end_to_end_scenario (start_date D : Z) (e1 e2 e3 e4 e5 : Env) :
  Forall (fun e => today e = D) [e1; e2; e3; e4; e5] ->
  Forall (fun e => exists q, generation_succeeds json_loads e q)
    [e1; e2; e3; e4; e5] ->
  exists (r1 r2 r3 r4 r5 : Result Quiz) (q1 q2 x y z : Quiz),
    run json_loads scenario_config [e1; e2; e3; e4; e5]
      (initial_state start_date) = [r1; r2; r3; r4; r5]
    /\ generation_succeeds json_loads e1 q1
    /\ generation_succeeds json_loads e2 q2
    /\ (ordered r1 /\ response r1 = Json200 q1
        /\ QUIZ_CACHE (state r1) = [q1] /\ SERVING_POOL (state r1) = []
        /\ api_call_count (state r1) = 1)
    /\ (ordered r2 /\ response r2 = Json200 q2
        /\ QUIZ_CACHE (state r2) = [q1; q2] /\ SERVING_POOL (state r2) = []
        /\ api_call_count (state r2) = 2)
    /\ (batched r3 /\ popped r3 /\ ~ ordered r3
        /\ shuffle (randbelow e3) [q1; q2] = [y; x]
        /\ response r3 = Json200 x
        /\ QUIZ_CACHE (state r3) = [q1; q2] /\ SERVING_POOL (state r3) = [y]
        /\ api_call_count (state r3) = 2)
    /\ (popped r4 /\ ~ batched r4 /\ ~ ordered r4
        /\ response r4 = Json200 y
        /\ QUIZ_CACHE (state r4) = [q1; q2] /\ SERVING_POOL (state r4) = []
        /\ api_call_count (state r4) = 2)
    /\ (batched r5 /\ popped r5 /\ ~ ordered r5
        /\ shuffle (randbelow e5) [q1; q2] = SERVING_POOL (state r5) ++ [z]
        /\ response r5 = Json200 z
        /\ QUIZ_CACHE (state r5) = [q1; q2]
        /\ List.length (SERVING_POOL (state r5)) = 1%nat
        /\ api_call_count (state r5) = 2).
Proof.
  intros Hday Hgen.
  repeat (apply Forall_cons_iff in Hday;
          destruct Hday as [?Hd Hday]).
  apply Forall_cons_iff in Hgen. destruct Hgen as [[q1 Hg1] Hgen].
  apply Forall_cons_iff in Hgen. destruct Hgen as [[q2 Hg2] _].
  set (s0 := initial_state start_date : State Quiz).
  set (r1 := handler e1 s0). set (r2 := handler e2 (state r1)).
  set (r3 := handler e3 (state r2)). set (r4 := handler e4 (state r3)).
  set (r5 := handler e5 (state r4)).
  pose proof (stamps_grow_by_one scenario_config e1 s0) as L1. fold r1 in L1.
  pose proof (stamps_grow_by_one scenario_config e2 (state r1)) as L2. fold r2 in L2.
  pose proof (stamps_grow_by_one scenario_config e3 (state r2)) as L3. fold r3 in L3.
  pose proof (stamps_grow_by_one scenario_config e4 (state r3)) as L4. fold r4 in L4.
  change (List.length (request_timestamps s0)) with 0%nat in L1.
  (* request 1 *)
  assert (O1 : ordered r1).
  { apply ordered_iff. unfold s0. split; [|split; [|split]].
    - apply scenario_admits. cbn. lia.
    - reflexivity.
    - cbn. lia.
    - unfold count_after_rollover. cbn. destruct (_ <? _); lia. }
  destruct (handler_generates Quiz json_loads scenario_config e1 s0 q1 O1 Hg1)
    as (R1 & P1 & C1 & B1 & D1).
  fold r1 in R1, P1, C1, B1, D1. cbn [QUIZ_CACHE s0 initial_state app] in C1.
  assert (B1' : api_call_count (state r1) = 1).
  { rewrite B1. unfold count_after_rollover. cbn. destruct (_ <? _); lia. }
  cbn [last_reset_date s0 initial_state] in D1.
  (* request 2 *)
  assert (O2 : ordered r2).
  { apply ordered_iff. split; [|split; [|split]].
    - apply scenario_admits. lia.
    - exact P1.
    - rewrite C1. cbn. lia.
    - unfold count_after_rollover. rewrite B1'. cbn.
      destruct (_ <? _); lia. }
  destruct (handler_generates Quiz json_loads scenario_config e2 (state r1) q2 O2 Hg2)
    as (R2 & P2 & C2 & B2 & D2).
  fold r2 in R2, P2, C2, B2, D2. rewrite C1 in C2. cbn [app] in C2.
  assert (B2' : api_call_count (state r2) = 2).
  { rewrite B2. unfold count_after_rollover. rewrite B1', D1.
    destruct (Z.ltb_spec (Z.max start_date (today e1)) (today e2)); lia. }
  (* request 3 *)
  assert (A3 : ~ rate_limited r3) by (apply scenario_admits; lia).
  assert (O3 : ~ ordered r3).
  { unfold r3. rewrite ordered_iff, C2. cbn. lia. }
  destruct (handler_batches Quiz json_loads scenario_config e3 (state r2) A3 O3 P2)
    as (K3 & Pp3 & C3 & B3 & D3 & x & R3 & S3).
  { rewrite C2. discriminate. }
  fold r3 in K3, Pp3, C3, B3, D3, R3, S3. rewrite C2 in C3, S3.
  assert (B3' : api_call_count (state r3) = 2).
  { rewrite B3. unfold count_after_rollover. rewrite B2', D2, D1.
    destruct (Z.ltb_spec (Z.max (Z.max start_date (today e1)) (today e2))
                (today e3)); lia. }
  destruct (SERVING_POOL (state r3)) as [|y [|? ?]] eqn:P3;
    try (apply (f_equal (@List.length Quiz)) in S3;
         rewrite shuffle_length in S3; cbn in S3;
         try rewrite length_app in S3; cbn in S3; lia).
  cbn [app] in S3.
  (* request 4 *)
  assert (A4 : ~ rate_limited r4) by (apply scenario_admits; lia).
  destruct (handler_pops Quiz json_loads scenario_config e4 (state r3) [] y A4 P3)
    as (R4 & Pp4 & O4 & K4 & P4 & C4 & B4 & D4).
  fold r4 in R4, Pp4, O4, K4, P4, C4, B4, D4. rewrite C3 in C4.
  rewrite B3' in B4.
  (* request 5 *)
  assert (A5 : ~ rate_limited r5) by (apply scenario_admits; lia).
  assert (O5 : ~ ordered r5).
  { unfold r5. rewrite ordered_iff, C4. cbn. lia. }
  destruct (handler_batches Quiz json_loads scenario_config e5 (state r4) A5 O5 P4)
    as (K5 & Pp5 & C5 & B5 & D5 & z & R5 & S5).
  { rewrite C4. discriminate. }
  fold r5 in K5, Pp5, C5, B5, D5, R5, S5. rewrite C4 in C5, S5.
  assert (B5' : api_call_count (state r5) = 2).
  { rewrite B5. unfold count_after_rollover. rewrite B4, D4, D3, D2, D1.
    destruct (Z.ltb_spec
      (Z.max (Z.max (Z.max start_date (today e1)) (today e2)) (today e3))
      (today e5)); lia. }
  assert (N5 : List.length (SERVING_POOL (state r5)) = 1%nat).
  { apply (f_equal (@List.length Quiz)) in S5.
    rewrite shuffle_length, length_app in S5. cbn in S5. lia. }
  exists r1, r2, r3, r4, r5, q1, q2, x, y, z.
  split; [reflexivity|]. tauto.
Qed.

End Scenario.

(** ** The two variants of the handler and the recording of timestamps *)

(** C10. In [WebAPI.py] a request that the rate limiter admits has its time
    appended to the purged timestamps before the supply logic runs, so
    whatever the response (a quiz, the 500 of a failed generation, the
    429 of an exhausted supply) the timestamp is recorded, and a rejected
    request leaves the purged timestamps only.  In [WebAPIboto3.py] the
    same holds once the API key is loaded; while it is not, a request is
    answered with a 500 before the rate limiter and changes no global. *)
Theorem admitted_requests_are_recorded {Quiz : Type}
  (json_loads : string -> option Quiz) (cfg : Config)
  (key : option string) (env : Env) (s : State Quiz) :
  let purged := purge cfg (current_time env) (request_timestamps s) in
  let r := WebAPI.generate_quiz json_loads cfg env s in
  let r' := WebAPIboto3.generate_quiz json_loads cfg key env s in
  (~ rate_limited r ->
     r = supply json_loads cfg env (set_timestamps Quiz s (purged ++ [current_time env]))
     /\ request_timestamps (state r) = purged ++ [current_time env])
  /\ (rate_limited r -> request_timestamps (state r) = purged)
  /\ (key <> None -> r' = r)
  /\ (key = None -> response r' = NotInitialized500 /\ state r' = s)
  /\ (response r' <> RateLimit429 -> response r' <> NotInitialized500 ->
      request_timestamps (state r') = purged ++ [current_time env])
  /\ (response r' = RateLimit429 -> request_timestamps (state r') = purged).
Proof.
  cbv zeta. split; [|split; [|split; [|split; [|split]]]].
  - intros H. split; [|apply admitted_is_recorded; exact H].
    apply handler_admits. rewrite rate_limited_iff in H. lia.
  - intros H. rewrite rejected_is_not_recorded by exact H. reflexivity.
  - intros H. destruct key; [reflexivity|contradiction].
  - intros ->. split; reflexivity.
  - destruct key as [k|]; cbn; [|congruence].
    intros H _. apply admitted_is_recorded. exact H.
  - destruct key as [k|]; cbn; [|discriminate].
    intros H. rewrite rejected_is_not_recorded by exact H. reflexivity.
Qed.

(** In [WebAPIboto3.py], with the API key not loaded, a request is not
    rejected by the rate limiter and yet leaves no timestamp, where the
    handler of [WebAPI.py] records it. *)
Lemma unrecorded_without_rate_limit :
  let env := Sample.env_at 7 0 (Text Sample.quiz_a) in
  let s := initial_state 0 : State string in
  let r' := WebAPIboto3.generate_quiz Sample.loads source_config None env s in
  let r := WebAPI.generate_quiz Sample.loads source_config env s in
  response r' = NotInitialized500
  /\ ~ rate_limited r'
  /\ request_timestamps (state r') = []
  /\ request_timestamps (state r) = [7%Q].
Proof.
  cbv zeta. repeat split. intros H. discriminate H.
Qed.

(** ** The theorems on concrete requests *)

(** Five requests on day 3 with the scenario constants. *)
Lemma end_to_end_scenario_witness :
  exists (r1 r2 r3 r4 r5 : Result string) (q1 q2 x y z : string),
    run Sample.loads scenario_config Sample.five_requests (initial_state 0)
    = [r1; r2; r3; r4; r5]
    /\ ordered r1 /\ ordered r2
    /\ QUIZ_CACHE (state r2) = [q1; q2]
    /\ batched r3 /\ SERVING_POOL (state r3) = [y]
    /\ SERVING_POOL (state r4) = []
    /\ batched r5 /\ QUIZ_CACHE (state r5) = [q1; q2].
Proof.
  destruct (end_to_end_scenario string Sample.loads 0 3
              (Sample.env_at 0 3 (Text "Here it is: {a} enjoy"))
              (Sample.env_at 1 3 (Text Sample.quiz_b))
              (Sample.env_at 2 3 (Text Sample.quiz_a))
              (Sample.env_at 3 3 (Text Sample.quiz_a))
              (Sample.env_at 4 3 (Text Sample.quiz_a)))
    as (r1 & r2 & r3 & r4 & r5 & q1 & q2 & x & y & z & H).
  - repeat constructor.
  - repeat constructor.
    + exists "{a}"%string, "Here it is: {a} enjoy"%string, "{a}"%string.
      repeat split.
    + exists Sample.quiz_b, Sample.quiz_b, Sample.quiz_b. repeat split.
    + exists Sample.quiz_a, Sample.quiz_a, Sample.quiz_a. repeat split.
    + exists Sample.quiz_a, Sample.quiz_a, Sample.quiz_a. repeat split.
    + exists Sample.quiz_a, Sample.quiz_a, Sample.quiz_a. repeat split.
  - exists r1, r2, r3, r4, r5, q1, q2, x, y, z. tauto.
Defined.

(** The constants of the source: 56 requests at the same instant, then
    three requests more than a minute apart. *)
Lemma rate_limiter_admission_witness :
  let s := initial_state 0 : State string in
  let burst := repeat (Sample.env_at 0 0 SendRaised) 55 in
  let last := Sample.env_at 0 0 SendRaised in
  let slow := [Sample.env_at 0 0 SendRaised; Sample.env_at 61 0 SendRaised;
               Sample.env_at 122 0 SendRaised] in
  (Forall (fun r => ~ rate_limited r) (run Sample.loads source_config burst s)
   /\ rate_limited (generate_quiz Sample.loads source_config last
                      (exec Sample.loads source_config burst s))
   /\ status_code (response (generate_quiz Sample.loads source_config last
                      (exec Sample.loads source_config burst s))) = 429)
  /\ Forall (fun r => ~ rate_limited r) (run Sample.loads source_config slow s).
Proof.
  cbv zeta.
  destruct (rate_limiter_admission string Sample.loads source_config
              (initial_state 0) eq_refl) as [Hburst Hslow].
  split.
  - apply Hburst; [reflexivity|].
    assert (Hzero : forall t,
              In t (map current_time
                      (repeat (Sample.env_at 0 0 SendRaised) 55
                       ++ [Sample.env_at 0 0 SendRaised])) -> t = 0%Q).
    { intros t Ht. apply in_map_iff in Ht. destruct Ht as (e & <- & He).
      apply in_app_or in He. destruct He as [He|[<-|[]]]; [|reflexivity].
      apply repeat_spec in He. subst e. reflexivity. }
    intros t t' Ht Ht'.
    rewrite (Hzero t Ht), (Hzero t' Ht'). reflexivity.
  - apply Hslow; [reflexivity|]. cbn. repeat split.
Defined.

(** A budget of 2 spent on day 0 by two failed generations. *)
Lemma budget_exhaustion_and_rollover_witness :
  let s := exec Sample.loads Sample.tiny_config Sample.failing_day
             (initial_state 0 : State string) in
  let same_day := Sample.env_at 100 0 (Text Sample.quiz_a) in
  let next_day := Sample.env_at 100 1 (Text Sample.quiz_a) in
  api_call_count s = 2
  /\ ~ ordered (generate_quiz Sample.loads Sample.tiny_config same_day s)
  /\ ordered (generate_quiz Sample.loads Sample.tiny_config next_day s)
  /\ api_call_count
       (state (generate_quiz Sample.loads Sample.tiny_config next_day s)) = 1
  /\ last_reset_date
       (state (generate_quiz Sample.loads Sample.tiny_config next_day s)) = 1.
Proof.
  cbv zeta.
  destruct (budget_exhaustion_and_rollover string Sample.loads
              Sample.tiny_config 0 (initial_state 0) Sample.failing_day)
    as (Hc & _ & Hsame & Hnext).
  - reflexivity.
  - left. split; reflexivity.
  - repeat constructor.
  - reflexivity.
  - split; [exact Hc|]. split.
    + apply (Hsame (Sample.env_at 100 0 (Text Sample.quiz_a))). reflexivity.
    + apply (Hnext (Sample.env_at 100 1 (Text Sample.quiz_a))).
      * reflexivity.
      * intros H. vm_compute in H. discriminate H.
      * reflexivity.
      * reflexivity.
Defined.

(** A paid order answered with a text that has no brace. *)
Lemma parse_failure_isolation_witness :
  let env := Sample.env_at 0 0 (Text "no quiz today") in
  let r := generate_quiz Sample.loads source_config env
             (initial_state 0 : State string) in
  response r = Exception500 NoJsonFound
  /\ QUIZ_CACHE (state r) = []
  /\ api_call_count (state r) = 1.
Proof.
  cbv zeta.
  destruct (parse_failure_isolation string Sample.loads source_config
              (Sample.env_at 0 0 (Text "no quiz today")) (initial_state 0)
              "no quiz today")
    as (H1 & _ & _ & H2 & _ & _ & H3).
  - exists 1. cbn. auto.
  - reflexivity.
  - left. cbn. intuition discriminate.
  - split; [exact H1|]. split; [exact H2|exact H3].
Defined.

(** A request served from the stock: the stock is not the pool. *)
Lemma stock_pool_exclusivity_witness :
  let r := generate_quiz Sample.loads Sample.tiny_config
             (Sample.env_at 100 0 (Text Sample.quiz_a)) Sample.stocked in
  ~ (appended r /\ popped r).
Proof.
  exact (proj1 (stock_pool_exclusivity string Sample.loads Sample.tiny_config
                  (Sample.env_at 100 0 (Text Sample.quiz_a)) Sample.stocked)).
Defined.



(** A batch built from a stock of two quizzes. *)
Lemma batching_preserves_stock_witness :
  let r := generate_quiz Sample.loads Sample.tiny_config
             (Sample.env_at 100 0 SendRaised) Sample.stocked in
  QUIZ_CACHE (state r) = [Sample.quiz_a; Sample.quiz_b].
Proof.
  cbv zeta.
  apply (batching_preserves_stock string Sample.loads Sample.tiny_config
           (Sample.env_at 100 0 SendRaised) Sample.stocked).
  cbn. auto.
Defined.

(** A third request within the minute, the limit being 2. *)
Lemma rate_limited_rejection_is_atomic_witness :
  let r := generate_quiz Sample.loads Sample.tiny_config
             (Sample.env_at 2 0 (Text Sample.quiz_a)) Sample.stocked in
  status_code (response r) = 429
  /\ request_timestamps (state r) = [0%Q; 1%Q]
  /\ QUIZ_CACHE (state r) = [Sample.quiz_a; Sample.quiz_b]
  /\ SERVING_POOL (state r) = []
  /\ api_call_count (state r) = 2
  /\ last_reset_date (state r) = 0.
Proof.
  cbv zeta.
  apply (rate_limited_rejection_is_atomic string Sample.loads
           Sample.tiny_config (Sample.env_at 2 0 (Text Sample.quiz_a))
           Sample.stocked).
  reflexivity.
Defined.

(** The stock of the source after the five requests of the scenario. *)
Lemma stock_size_bound_witness :
  Z.of_nat (List.length (QUIZ_CACHE
    (exec Sample.loads source_config Sample.five_requests
       (initial_state 0 : State string)))) <= 5.
Proof.
  destruct (stock_size_bound string Sample.loads source_config)
    as (_ & _ & _ & H).
  apply (H ltac:(cbn; lia) 0 Sample.five_requests).
Defined.

(** A failed generation is recorded by both variants; a request that meets
    an unloaded key is not. *)
Lemma admitted_requests_are_recorded_witness :
  let env := Sample.env_at 7 0 SendRaised in
  let s := initial_state 0 : State string in
  request_timestamps
    (state (WebAPI.generate_quiz Sample.loads source_config env s)) = [7%Q]
  /\ request_timestamps
       (state (WebAPIboto3.generate_quiz Sample.loads source_config
                 (Some "key"%string) env s)) = [7%Q]
  /\ state (WebAPIboto3.generate_quiz Sample.loads source_config None env s) = s.
Proof.
  cbv zeta.
  destruct (admitted_requests_are_recorded Sample.loads source_config
              (Some "key"%string) (Sample.env_at 7 0 SendRaised)
              (initial_state 0))
    as (H1 & _ & _ & _ & H2 & _).
  destruct (admitted_requests_are_recorded Sample.loads source_config
              None (Sample.env_at 7 0 SendRaised) (initial_state 0))
    as (_ & _ & _ & H3 & _).
  split; [|split].
  - apply H1. intros H. discriminate H.
  - apply H2; intros H; discriminate H.
  - apply H3. reflexivity.
Defined.

(** * Further properties of the handler *)

Section Further.

Variable Quiz : Type.
Variable json_loads : string -> option Quiz.
Variable cfg : Config.

Local Abbreviation handler := (generate_quiz json_loads cfg).
Local Abbreviation window := (inject_Z (MINUTE_WINDOW cfg)).

Lemma window_positive : 0 < MINUTE_WINDOW cfg -> (0 < window)%Q.
Proof. intros H. unfold Qlt. cbn. lia. Qed.

Lemma purge_In (now t : Q) (stamps : list Q) :
  In t (purge cfg now stamps) -> In t stamps /\ (now - t < window)%Q.
Proof.
  unfold purge. rewrite filter_In. unfold fresh.
  destruct (Qlt_le_dec (now - t) window); intuition discriminate.
Qed.

(** X1. After any request, whatever its outcome, every retained timestamp
    is less than [MINUTE_WINDOW] seconds older than the time of that
    request, and it is either one that was retained before or the time of
    the request itself. *)
Theorem retained_timestamps_are_fresh (env : Env) (s : State Quiz) (t : Q) :
  0 < MINUTE_WINDOW cfg ->
  In t (request_timestamps (state (handler env s))) ->
  (current_time env - t < window)%Q
  /\ (In t (request_timestamps s) \/ t = current_time env).
Proof.
  intros Hw. rewrite timestamps_after.
  destruct (MINUTE_LIMIT cfg <=? _).
  - intros H. apply purge_In in H. tauto.
  - intros H. apply in_app_or in H. destruct H as [H|[<-|[]]].
    + apply purge_In in H. tauto.
    + split; [|now right]. apply window_positive in Hw. lra.
Qed.

(** X2. The limiter never retains more than [MINUTE_LIMIT] timestamps: a
    request keeps the bound, and every state reached from the initial
    globals satisfies it. *)
Theorem retained_count_is_bounded :
  (forall (env : Env) (s : State Quiz),
     Z.of_nat (List.length (request_timestamps s)) <= MINUTE_LIMIT cfg ->
     Z.of_nat (List.length (request_timestamps (state (handler env s))))
     <= MINUTE_LIMIT cfg)
  /\ (0 <= MINUTE_LIMIT cfg ->
      forall (start_date : Z) (envs : list Env),
        Z.of_nat (List.length (request_timestamps
          (exec json_loads cfg envs (initial_state start_date))))
        <= MINUTE_LIMIT cfg).
Proof.
  assert (Hstep : forall (env : Env) (s : State Quiz),
    Z.of_nat (List.length (request_timestamps s)) <= MINUTE_LIMIT cfg ->
    Z.of_nat (List.length (request_timestamps (state (handler env s))))
    <= MINUTE_LIMIT cfg).
  { intros env s H. rewrite timestamps_after.
    pose proof (purge_length cfg (current_time env) (request_timestamps s)).
    destruct (Z.leb_spec (MINUTE_LIMIT cfg)
      (Z.of_nat (List.length (purge cfg (current_time env) (request_timestamps s)))));
      [lia|]. rewrite length_app. cbn [List.length]. lia. }
  split; [exact Hstep|].
  intros H0 d envs. induction envs as [|e envs IH] using rev_ind; [exact H0|].
  rewrite exec_snoc. apply Hstep. exact IH.
Qed.

(** X3. The budget counter stays between 0 and [DAILY_API_LIMIT] and the
    budget date never moves back: a request keeps both, and every state
    reached from the initial globals has its counter in that range. *)
Theorem budget_stays_in_range :
  (forall (env : Env) (s : State Quiz),
     budget_in_range cfg s ->
     budget_in_range cfg (state (handler env s)))
  /\ (forall (env : Env) (s : State Quiz),
     last_reset_date s <= last_reset_date (state (handler env s)))
  /\ (0 <= DAILY_API_LIMIT cfg ->
      forall (start_date : Z) (envs : list Env),
        budget_in_range cfg
          (exec json_loads cfg envs (initial_state start_date))).
Proof.
  assert (Hstep : forall (env : Env) (s : State Quiz),
    budget_in_range cfg s -> budget_in_range cfg (state (handler env s))).
  { unfold budget_in_range. intros env s.
    branches; intros H; cbn;
      repeat match goal with
        | E : _ && _ = true |- _ => apply andb_prop in E; destruct E
        end; lia. }
  split; [exact Hstep|]. split.
  - intros env s. branches; cbn; lia.
  - intros H0 d envs. induction envs as [|e envs IH] using rev_ind.
    + unfold budget_in_range. cbn. lia.
    + rewrite exec_snoc. apply Hstep. exact IH.
Qed.

(** X4. The numbers printed agree with the globals the request leaves: the
    order number of line 80 is the budget counter, the size of line 96 is
    the size of the stock, the remainder of line 64 is the size of the
    pool. *)
Theorem printed_counters_match_globals (env : Env) (s : State Quiz) :
  (forall n, In (LogOrder n) (stdout (handler env s)) ->
     api_call_count (state (handler env s)) = n)
  /\ (forall k, In (LogAdded k) (stdout (handler env s)) ->
     List.length (QUIZ_CACHE (state (handler env s))) = k)
  /\ (forall m, In (LogServeFromPool m) (stdout (handler env s)) ->
     Z.of_nat (List.length (SERVING_POOL (state (handler env s)))) = m).
Proof.
  branches; (split; [|split]); intros x Hx; cbn [In app] in Hx;
    repeat match goal with
      | H : _ \/ _ |- _ => destruct H as [H|H]
      | H : False |- _ => destruct H
      end; try discriminate.
  all: try (injection Hx as <-; reflexivity).
  all: match goal with
       | E : pop _ = Some _ |- _ =>
           apply pop_length in E; injection Hx as <-; lia
       end.
Qed.

(** X5. The 429 answer of line 105 is given exactly when the request is
    admitted, the pool and the stock are both empty, and no order can be
    placed: the target is not positive or the budget, after the rollover,
    is spent.  The stock and the pool are still empty afterwards. *)
Theorem exhausted_iff (env : Env) (s : State Quiz) :
  (response (handler env s) = Exhausted429
   <-> ~ rate_limited (handler env s)
       /\ SERVING_POOL s = [] /\ QUIZ_CACHE s = []
       /\ (SET_SIZE cfg <= 0
           \/ DAILY_API_LIMIT cfg <= count_after_rollover env s))
  /\ (response (handler env s) = Exhausted429 ->
      QUIZ_CACHE (state (handler env s)) = []
      /\ SERVING_POOL (state (handler env s)) = []).
Proof.
  split; [|branches; intros H; try discriminate;
           repeat match goal with
             | E : pop _ = None |- _ => apply pop_nil_iff in E
             end; split; assumption].
  split.
  - intros H.
    assert (Ha : ~ rate_limited (handler env s))
      by (unfold rate_limited; congruence).
    revert H. branches; intros H; try discriminate; try no_empty_batch.
    all: repeat match goal with
           | E : pop _ = None |- _ => apply pop_nil_iff in E
           | E : _ && _ = false |- _ => apply andb_false_iff in E
           end.
    all: split; [exact Ha|]; split; [assumption|]; split; [assumption|].
    all: match goal with
         | C : QUIZ_CACHE _ = [], E : _ \/ _ |- _ =>
             rewrite ?C in E; cbn in E; destruct E; [left|right]; lia
         end.
  - intros (Ha & Hp & Hc & Hn).
    assert (Ho : ~ ordered (handler env s)).
    { rewrite ordered_iff, Hc. cbn. lia. }
    revert Ha Ho. unfold rate_limited.
    branches; intros Ha Ho; try reflexivity; try congruence.
    all: try (exfalso; apply Ho; log_true).
    all: repeat match goal with
           | E : pop _ = Some _ |- _ => apply pop_Some_iff in E
           end.
    all: try match goal with
           | E : SERVING_POOL _ = ?l ++ _ |- _ =>
               rewrite Hp in E; destruct l; discriminate
           end.
Qed.

(** X6. An order that does not come back as a parsed quiz, whatever went
    wrong (the call raised, the text could not be read, no braces, no
    valid JSON), is answered with status 500, leaves the stock and the
    pool as they were and is paid for all the same; an order that does
    come back is answered with that quiz, which is appended to the
    stock. *)
Theorem order_outcome (env : Env) (s : State Quiz) :
  ordered (handler env s) ->
  api_call_count (state (handler env s)) = count_after_rollover env s + 1
  /\ SERVING_POOL (state (handler env s)) = SERVING_POOL s
  /\ ((exists q,
         generation_succeeds json_loads env q
         /\ response (handler env s) = Json200 q
         /\ QUIZ_CACHE (state (handler env s)) = QUIZ_CACHE s ++ [q])
      \/ ((forall q, ~ generation_succeeds json_loads env q)
          /\ status_code (response (handler env s)) = 500
          /\ QUIZ_CACHE (state (handler env s)) = QUIZ_CACHE s)).
Proof.
  intros Ho.
  destruct (budget_after Quiz json_loads cfg env s) as (Hb & _ & _).
  destruct (Hb Ho) as [Hc _]. split; [exact Hc|]. clear Hb Hc.
  revert Ho. unfold generation_succeeds. branches; intros Ho;
    try (log_false; fail).
  all: match goal with E : pop _ = None |- _ => apply pop_nil_iff in E end.
  all: split; [congruence|].
  all: try (left; eexists; split; [do 2 eexists; repeat split; eassumption|];
            split; reflexivity).
  all: right; split; [|split; reflexivity].
  all: intros q' (raw & js & Hup & Hex & Hjs); congruence.
Qed.

(** X7. The stock only grows, and only at its end: after any requests the
    stock is the old one followed by the quizzes added, at most one for
    each order placed. *)
Theorem stock_is_append_only (envs : list Env) (s : State Quiz) :
  exists added,
    QUIZ_CACHE (exec json_loads cfg envs s) = QUIZ_CACHE s ++ added
    /\ (List.length added <= reservations (run json_loads cfg envs s))%nat.
Proof.
  revert s. induction envs as [|e envs IH]; intros s.
  - exists []. cbn. rewrite app_nil_r. split; [reflexivity|lia].
  - destruct (IH (state (handler e s))) as (added & Hst & Hlen).
    rewrite exec_cons. cbn [run].
    pose proof (reservations_cons Quiz (handler e s)
                  (run json_loads cfg envs (state (handler e s)))) as Hr.
    destruct (stock_after Quiz json_loads cfg e s) as [E|(Ho & q & _ & _ & E)].
    + exists added. rewrite Hst, E. split; [reflexivity|lia].
    + exists (q :: added). rewrite Hst, E, <- app_assoc.
      split; [reflexivity|].
      apply orderedb_spec in Ho.
      assert (reservations [handler e s] = 1%nat)
        by (unfold reservations; cbn [filter]; rewrite Ho; reflexivity).
      cbn [List.length]. lia.
Qed.

Lemma serving_keeps_pool_in_stock (env : Env) (s : State Quiz) :
  incl (SERVING_POOL s) (QUIZ_CACHE s) ->
  incl (SERVING_POOL (state (handler env s))) (QUIZ_CACHE (state (handler env s)))
  /\ (forall q, response (handler env s) = Json200 q ->
       In q (QUIZ_CACHE (state (handler env s)))).
Proof.
  intros Hin. branches; try no_empty_batch.
  all: repeat match goal with
         | E : pop _ = Some _ |- _ => apply pop_Some_iff in E
         | E : pop _ = None |- _ => apply pop_nil_iff in E
         end.
  all: split; [|intros q' Hq'; try discriminate; injection Hq' as <-].
  all: try assumption.
  all: try match goal with
         | E : SERVING_POOL _ = _ ++ [_] |- _ => rewrite E in Hin
         end.
  all: try (intros a Ha; apply Hin; apply in_or_app; now left).
  all: try (apply Hin; apply in_or_app; right; now left).
  all: try (rewrite Hin; intros a []).
  all: try (apply in_or_app; right; now left).
  all: try match goal with
         | E : SERVING_POOL _ = [] |- _ =>
             rewrite E; intros a Ha; destruct Ha
         end.
  all: match goal with
       | C : QUIZ_CACHE _ = _ :: _, E : shuffle ?rb ?x = ?l ++ [?q] |- _ =>
           pose proof (shuffle_Permutation rb x) as Hperm;
           rewrite E in Hperm; rewrite C
       end.
  all: try (intros a Ha; apply (Permutation_in _ Hperm);
            apply in_or_app; now left).
  all: apply (Permutation_in _ Hperm); apply in_or_app; right; now left.
Qed.

Lemma run_snoc (env : Env) (envs : list Env) (s : State Quiz) :
  run json_loads cfg (envs ++ [env]) s
  = run json_loads cfg envs s ++ [handler env (exec json_loads cfg envs s)].
Proof.
  revert s. induction envs as [|e envs IH]; intros s; [reflexivity|].
  cbn [app run]. rewrite IH, exec_cons. reflexivity.
Qed.

(** X8. Every quiz the service hands out was parsed from the answer the
    model gave to a request of the history, and is in the stock once the
    request that served it has returned; the stock holds nothing else. *)
Theorem served_quizzes_were_generated (start_date : Z) (envs : list Env) :
  let s := exec json_loads cfg envs (initial_state start_date) in
  incl (SERVING_POOL s) (QUIZ_CACHE s)
  /\ (forall q, In q (QUIZ_CACHE s) ->
       exists env, In env envs /\ generation_succeeds json_loads env q)
  /\ (forall q, In q (served (run json_loads cfg envs (initial_state start_date))) ->
       In q (QUIZ_CACHE s)).
Proof.
  cbv zeta. induction envs as [|e envs IH] using rev_ind.
  - cbn. repeat split; intros q [].
  - destruct IH as (Hincl & Hgen & Hserved).
    set (s := exec json_loads cfg envs (initial_state start_date)) in *.
    rewrite exec_snoc. fold s.
    destruct (serving_keeps_pool_in_stock e s Hincl) as [Hincl' Hresp].
    assert (Hext : forall q, In q (QUIZ_CACHE s) ->
                     In q (QUIZ_CACHE (state (handler e s)))).
    { intros q Hq.
      destruct (stock_after Quiz json_loads cfg e s) as [->|(_ & q' & _ & _ & ->)];
        [exact Hq|apply in_or_app; now left]. }
    split; [exact Hincl'|]. split.
    + intros q Hq.
      destruct (stock_after Quiz json_loads cfg e s) as [E|(_ & q' & Hg & _ & E)];
        rewrite E in Hq.
      * destruct (Hgen q Hq) as (env & He & Hs).
        exists env. split; [apply in_or_app; now left|exact Hs].
      * apply in_app_or in Hq. destruct Hq as [Hq|[<-|[]]].
        -- destruct (Hgen q Hq) as (env & He & Hs).
           exists env. split; [apply in_or_app; now left|exact Hs].
        -- exists e. split; [apply in_or_app; right; now left|exact Hg].
    + intros q Hq.
      rewrite run_snoc in Hq. fold s in Hq. unfold served in Hq. rewrite flat_map_app in Hq.
      apply in_app_or in Hq. destruct Hq as [Hq|Hq].
      * apply Hext. apply Hserved. exact Hq.
      * cbn in Hq. rewrite app_nil_r in Hq.
        destruct (response (handler e s)) eqn:Er; cbn in Hq; try contradiction.
        destruct Hq as [<-|[]]. apply Hresp. reflexivity.
Qed.

Lemma day_budget_step (D : Z) (env : Env) (s : State Quiz) :
  0 <= DAILY_API_LIMIT cfg ->
  today env = D ->
  (last_reset_date s = D -> api_call_count s <= DAILY_API_LIMIT cfg) ->
  last_reset_date (state (handler env s)) = D ->
  api_call_count (state (handler env s)) <= DAILY_API_LIMIT cfg.
Proof.
  intros H0 Ht. branches; cbn; intros Hinv Hd;
    repeat match goal with
      | E : _ && _ = true |- _ => apply andb_prop in E; destruct E
      end; lia.
Qed.

Lemma day_budget_run (D : Z) (envs : list Env) (s : State Quiz) :
  0 <= DAILY_API_LIMIT cfg ->
  Forall (fun e => today e = D) envs ->
  (last_reset_date s = D -> api_call_count s <= DAILY_API_LIMIT cfg) ->
  last_reset_date (exec json_loads cfg envs s) = D ->
  api_call_count (exec json_loads cfg envs s) <= DAILY_API_LIMIT cfg.
Proof.
  intros H0 Hd. revert s. induction envs as [|e envs IH]; intros s Hinv.
  - exact Hinv.
  - apply Forall_cons_iff in Hd. destruct Hd as [He Hd].
    rewrite exec_cons. apply IH; [exact Hd|].
    apply (day_budget_step D); assumption.
Qed.

(** X9. No more than [DAILY_API_LIMIT] orders are placed on one day: from
    globals whose budget window for day [D] has just opened or is still
    to open, the requests of day [D], however many and whatever their
    outcomes, place at most [DAILY_API_LIMIT] orders between them. *)
Theorem orders_per_day_are_bounded (D : Z) (s0 : State Quiz) (envs : list Env) :
  0 <= DAILY_API_LIMIT cfg ->
  budget_on D 0 s0 ->
  Forall (fun e => today e = D) envs ->
  Z.of_nat (reservations (run json_loads cfg envs s0)) <= DAILY_API_LIMIT cfg.
Proof.
  intros H0 Hb Hd.
  pose proof (budget_on_run Quiz json_loads cfg D 0 envs s0 Hb Hd) as Hrun.
  pose proof (day_budget_run D envs s0 H0 Hd) as Hinv.
  destruct Hrun as [[Hdate Hcount]|[_ Hz]]; [|lia].
  assert (Hle : api_call_count (exec json_loads cfg envs s0)
                <= DAILY_API_LIMIT cfg).
  { apply Hinv; [|exact Hdate]. destruct Hb as [[_ Hc]|[Hlt _]]; lia. }
  lia.
Qed.

Lemma app_split_by_length {A : Type} (l1 l2 l3 l4 : list A) :
  l1 ++ l2 = l3 ++ l4 -> List.length l2 = List.length l4 ->
  l1 = l3 /\ l2 = l4.
Proof.
  revert l3. induction l1 as [|a l1 IH]; intros [|b l3] H Hl; cbn in H.
  - split; [reflexivity|exact H].
  - exfalso. apply (f_equal (@List.length A)) in H. cbn in H.
    rewrite length_app in H. lia.
  - exfalso. apply (f_equal (@List.length A)) in H. cbn in H.
    rewrite length_app in H. lia.
  - injection H as -> H. destruct (IH l3 H Hl) as [-> ->]. split; reflexivity.
Qed.

Lemma drain_leaves_budget (envs : list Env) (s : State Quiz) :
  (List.length envs <= List.length (SERVING_POOL s))%nat ->
  Forall (fun r => ~ rate_limited r) (run json_loads cfg envs s) ->
  api_call_count (exec json_loads cfg envs s) = api_call_count s
  /\ last_reset_date (exec json_loads cfg envs s) = last_reset_date s.
Proof.
  revert s. induction envs as [|e envs IH]; intros s Hlen Hadm.
  - split; reflexivity.
  - cbn [run] in Hadm. apply Forall_cons_iff in Hadm. destruct Hadm as [Ha Hadm].
    destruct (SERVING_POOL s) as [|q rest _] eqn:Ep using rev_ind;
      [cbn in Hlen; lia|].
    destruct (handler_pops Quiz json_loads cfg e s rest q Ha Ep)
      as (_ & _ & _ & _ & Hpool & _ & Hc & Hd).
    rewrite exec_cons. destruct (IH (state (handler e s))) as [IHc IHd].
    + rewrite Hpool. rewrite length_app in Hlen. cbn in Hlen. lia.
    + exact Hadm.
    + split; congruence.
Qed.

(** X10. While the pool holds items, admitted requests are served from its
    end, last in first out, whatever the date and whatever the model
    would answer: they hand out the last items in reverse order, place no
    order, and leave the rest of the pool, the stock, the budget counter
    and the budget date as they were, even when the day has changed. *)
Theorem pool_is_served_last_in_first_out (envs : list Env) (s : State Quiz)
  (rest items : list Quiz) :
  SERVING_POOL s = rest ++ items ->
  List.length envs = List.length items ->
  Forall (fun r => ~ rate_limited r) (run json_loads cfg envs s) ->
  served (run json_loads cfg envs s) = rev items
  /\ Forall (fun r => ~ ordered r) (run json_loads cfg envs s)
  /\ SERVING_POOL (exec json_loads cfg envs s) = rest
  /\ QUIZ_CACHE (exec json_loads cfg envs s) = QUIZ_CACHE s
  /\ api_call_count (exec json_loads cfg envs s) = api_call_count s
  /\ last_reset_date (exec json_loads cfg envs s) = last_reset_date s.
Proof.
  intros Hp Hlen Hadm.
  assert (Hle : (List.length envs <= List.length (SERVING_POOL s))%nat).
  { rewrite Hp, length_app. lia. }
  destruct (drain Quiz json_loads cfg envs s Hle Hadm) as (D1 & D2 & D3 & D4).
  destruct (drain_leaves_budget envs s Hle Hadm) as [B1 B2].
  rewrite Hp in D2. symmetry in D2.
  apply app_split_by_length in D2; [|rewrite length_rev; lia].
  destruct D2 as [D2 D2'].
  split; [rewrite <- D2', rev_involutive; reflexivity|].
  split; [eapply Forall_impl; [|exact D1]; cbn; tauto|].
  repeat split; assumption.
Qed.

End Further.

(** ** The extraction of the JSON text *)

Lemma append_assoc (a b c : string) :
  ((a ++ b) ++ c)%string = (a ++ (b ++ c))%string.
Proof. induction a as [|x a IH]; cbn; [reflexivity|now rewrite IH]. Qed.

Lemma length_append (a b : string) :
  String.length (a ++ b) = (String.length a + String.length b)%nat.
Proof. induction a as [|x a IH]; cbn; [reflexivity|now rewrite IH]. Qed.

Lemma substring_skip (pre s : string) (n : nat) :
  substring (String.length pre) n (pre ++ s) = substring 0 n s.
Proof. induction pre as [|x pre IH]; cbn; [reflexivity|exact IH]. Qed.

Lemma substring_take (a b : string) :
  substring 0 (String.length a) (a ++ b) = a.
Proof.
  induction a as [|x a IH]; cbn; [destruct b; reflexivity|now rewrite IH].
Qed.

Lemma substring_of_no_length (n : nat) (s : string) :
  substring n 0 s = EmptyString.
Proof.
  revert n. induction s as [|x s IH]; intros [|n]; cbn; auto.
Qed.

Lemma find_after_prefix (c : ascii) (pre rest : string) :
  ~ occurs c pre ->
  find c (pre ++ String c rest) = Z.of_nat (String.length pre).
Proof.
  induction pre as [|x pre IH]; cbn [append find occurs String.length];
    intros H.
  - now rewrite Ascii.eqb_refl.
  - destruct (Ascii.eqb_spec x c) as [->|_]; [tauto|].
    rewrite IH by tauto.
    destruct (Z.eqb_spec (Z.of_nat (String.length pre)) (-1)); lia.
Qed.

Lemma rfind_before_suffix (c : ascii) (s post : string) :
  ~ occurs c post ->
  rfind c (s ++ String c post) = Z.of_nat (String.length s).
Proof.
  intros H. induction s as [|x s IH]; cbn [append rfind String.length].
  - rewrite (rfind_absent c post H). cbn. now rewrite Ascii.eqb_refl.
  - rewrite IH.
    destruct (Z.eqb_spec (Z.of_nat (String.length s)) (-1)); lia.
Qed.

(** X13. When the model wraps its JSON object in text, the handler recovers
    the object exactly: if nothing before the object contains an opening
    brace and nothing after it contains a closing brace, the candidate
    handed to [json.loads] is the object, from its opening brace to its
    closing brace, whatever braces it contains. *)
Theorem extract_json_recovers_the_object (pre body post : string) :
  ~ occurs "{"%char pre ->
  ~ occurs "}"%char post ->
  extract_json (pre ++ String "{" (body ++ String "}" post))
  = Some (String "{" (body ++ String "}" EmptyString)).
Proof.
  intros Hpre Hpost. unfold extract_json.
  rewrite (find_after_prefix _ pre _ Hpre).
  replace (pre ++ String "{" (body ++ String "}" post))%string
    with ((pre ++ String "{" body) ++ String "}" post)%string
    by (rewrite append_assoc; reflexivity).
  rewrite (rfind_before_suffix _ _ post Hpost), length_append.
  cbn [String.length].
  destruct (Z.eqb_spec (Z.of_nat (String.length pre)) (-1)); [lia|].
  destruct (Z.eqb_spec
    (Z.of_nat (String.length pre + S (String.length body)) + 1) 0); [lia|].
  cbn [negb andb]. f_equal. unfold slice.
  rewrite Nat2Z.id.
  replace (Z.to_nat (Z.of_nat (String.length pre + S (String.length body)) + 1
                     - Z.of_nat (String.length pre)))
    with (S (S (String.length body))) by lia.
  rewrite append_assoc. cbn [append]. rewrite substring_skip.
  cbn [substring]. f_equal.
  replace (body ++ String "}" post)%string
    with ((body ++ String "}" EmptyString) ++ post)%string
    by (rewrite append_assoc; reflexivity).
  replace (S (String.length body))
    with (String.length (body ++ String "}" EmptyString))
    by (rewrite length_append; cbn; lia).
  apply substring_take.
Qed.

(** X14. When both braces occur but the last closing brace comes before
    the first opening brace, no error is raised at line 93: the candidate
    handed to [json.loads] is the empty text. *)
Theorem crossed_braces_give_the_empty_text (raw : string) :
  occurs "}"%char raw ->
  rfind "}"%char raw < find "{"%char raw ->
  extract_json raw = Some EmptyString.
Proof.
  intros Hc Hlt. unfold extract_json.
  pose proof (rfind_present _ _ Hc) as Hr.
  destruct (Z.eqb_spec (find "{"%char raw) (-1)); [lia|].
  destruct (Z.eqb_spec (rfind "}"%char raw + 1) 0); [lia|].
  cbn [negb andb]. f_equal. unfold slice.
  replace (Z.to_nat (rfind "}"%char raw + 1 - find "{"%char raw)) with 0%nat
    by lia.
  apply substring_of_no_length.
Qed.

(** ** The sliding window in terms of the history *)

Section Window.

Variable Quiz : Type.
Variable json_loads : string -> option Quiz.
Variable cfg : Config.

Local Abbreviation handler := (generate_quiz json_loads cfg).

Lemma fresh_earlier (now T t : Q) :
  (now <= T)%Q -> fresh cfg T t = true -> fresh cfg now t = true.
Proof.
  unfold fresh. intros Hle.
  destruct (Qlt_le_dec (T - t) (inject_Z (MINUTE_WINDOW cfg)));
    [|discriminate].
  destruct (Qlt_le_dec (now - t) (inject_Z (MINUTE_WINDOW cfg)));
    [reflexivity|]. lra.
Qed.

Lemma in_window_purge (now T : Q) (stamps : list Q) :
  (now <= T)%Q ->
  in_window cfg T (purge cfg now stamps) = in_window cfg T stamps.
Proof.
  intros Hle. unfold in_window, purge.
  induction stamps as [|t ts IH]; cbn; [reflexivity|].
  destruct (fresh cfg now t) eqn:En; cbn; rewrite IH; [reflexivity|].
  destruct (fresh cfg T t) eqn:ET; [|reflexivity].
  rewrite (fresh_earlier now T t Hle ET) in En. discriminate.
Qed.

Lemma timestamps_step (env : Env) (s : State Quiz) :
  request_timestamps (state (handler env s))
  = purge cfg (current_time env) (request_timestamps s)
    ++ match response (handler env s) with
       | RateLimit429 => []
       | _ => [current_time env]
       end.
Proof.
  destruct (response (handler env s)) eqn:Er.
  all: try (apply admitted_is_recorded; unfold rate_limited; congruence).
  rewrite app_nil_r.
  rewrite (rejected_is_not_recorded Quiz json_loads cfg env s Er). reflexivity.
Qed.

(** Seen from a time that no request of the run is later than, the
    timestamps retained after the run are those retained before it and
    the times of the requests admitted since. *)
Lemma window_of_history (T : Q) (envs : list Env) (s : State Quiz) :
  Forall (fun e => (current_time e <= T)%Q) envs ->
  in_window cfg T (request_timestamps (exec json_loads cfg envs s))
  = in_window cfg T (request_timestamps s ++ admitted_times json_loads cfg envs s).
Proof.
  revert s. induction envs as [|e envs IH]; intros s Hle.
  - cbn. now rewrite app_nil_r.
  - apply Forall_cons_iff in Hle. destruct Hle as [He Hle].
    rewrite exec_cons, (IH _ Hle). cbn [admitted_times].
    rewrite timestamps_step. unfold in_window.
    rewrite !filter_app. fold (in_window cfg T (purge cfg (current_time e)
                                                  (request_timestamps s))).
    rewrite (in_window_purge _ _ _ He). unfold in_window.
    rewrite <- !app_assoc. reflexivity.
Qed.

Lemma retained_count_run (envs : list Env) (s : State Quiz) :
  Z.of_nat (List.length (request_timestamps s)) <= MINUTE_LIMIT cfg ->
  Z.of_nat (List.length (request_timestamps (exec json_loads cfg envs s)))
  <= MINUTE_LIMIT cfg.
Proof.
  revert s. induction envs as [|e envs IH]; intros s H; [exact H|].
  rewrite exec_cons. apply IH. rewrite timestamps_after.
  pose proof (purge_length cfg (current_time e) (request_timestamps s)).
  destruct (Z.leb_spec (MINUTE_LIMIT cfg)
    (Z.of_nat (List.length (purge cfg (current_time e) (request_timestamps s)))));
    [lia|]. rewrite length_app. cbn [List.length]. lia.
Qed.

(** X15. What the limiter decides depends on the admitted requests only:
    a request that no earlier request is later than is rejected exactly
    when [MINUTE_LIMIT] or more of the requests admitted since the start
    came less than [MINUTE_WINDOW] seconds before it.  Rejected requests
    are not counted. *)
Theorem rejection_counts_admitted_requests (start_date : Z)
  (envs : list Env) (env : Env) :
  Forall (fun e => (current_time e <= current_time env)%Q) envs ->
  (rate_limited
     (handler env (exec json_loads cfg envs (initial_state start_date)))
   <-> MINUTE_LIMIT cfg
       <= Z.of_nat (List.length
            (in_window cfg (current_time env)
               (admitted_times json_loads cfg envs (initial_state start_date))))).
Proof.
  intros Hle. rewrite rate_limited_iff.
  pose proof (window_of_history (current_time env) envs
                (initial_state start_date) Hle) as Hw.
  cbn [request_timestamps initial_state app] in Hw.
  unfold in_window in *. unfold purge. rewrite Hw. reflexivity.
Qed.

(** X16. The guarantee of the limiter: at the time of any request that no
    earlier request is later than, at most [MINUTE_LIMIT] of the requests
    admitted since the start, that one included, came within the last
    [MINUTE_WINDOW] seconds. *)
Theorem admitted_requests_per_window_are_bounded (start_date : Z)
  (envs : list Env) (env : Env) :
  0 <= MINUTE_LIMIT cfg ->
  Forall (fun e => (current_time e <= current_time env)%Q) envs ->
  Z.of_nat (List.length
    (in_window cfg (current_time env)
       (admitted_times json_loads cfg (envs ++ [env])
          (initial_state start_date))))
  <= MINUTE_LIMIT cfg.
Proof.
  intros H0 Hle.
  assert (Hall : Forall (fun e => (current_time e <= current_time env)%Q)
                   (envs ++ [env])).
  { apply Forall_app. split; [exact Hle|]. constructor; [lra|constructor]. }
  pose proof (window_of_history (current_time env) (envs ++ [env])
                (initial_state start_date) Hall) as Hw.
  cbn [request_timestamps initial_state app] in Hw. rewrite <- Hw.
  pose proof (retained_count_run (envs ++ [env]) (initial_state start_date) H0)
    as Hb.
  unfold in_window.
  pose proof (filter_length_le (fresh cfg (current_time env))
    (request_timestamps (exec json_loads cfg (envs ++ [env])
                           (initial_state start_date)))).
  lia.
Qed.

End Window.

(** ** The further properties on concrete requests *)

Ltac clock_order :=
  repeat first [apply Forall_nil | apply Forall_cons; [unfold Qle; cbn; lia|]].

Lemma retained_timestamps_are_fresh_witness :
  (2 - 1 < inject_Z 60)%Q /\ (In 1%Q [0%Q; 1%Q] \/ 1%Q = 2%Q).
Proof.
  apply (retained_timestamps_are_fresh string Sample.loads source_config
           (Sample.env_at 2 0 SendRaised) Sample.stocked 1%Q).
  - cbn. lia.
  - cbn. auto.
Defined.

Lemma retained_count_is_bounded_witness :
  Z.of_nat (List.length (request_timestamps
    (exec Sample.loads source_config Sample.five_requests
       (initial_state 0 : State string)))) <= 55.
Proof.
  destruct (retained_count_is_bounded string Sample.loads source_config)
    as [_ H].
  apply (H ltac:(cbn; lia) 0 Sample.five_requests).
Defined.

Lemma budget_stays_in_range_witness :
  budget_in_range Sample.tiny_config
    (exec Sample.loads Sample.tiny_config Sample.failing_day
       (initial_state 0 : State string)).
Proof.
  destruct (budget_stays_in_range string Sample.loads Sample.tiny_config)
    as (_ & _ & H).
  apply (H ltac:(cbn; lia) 0 Sample.failing_day).
Defined.

Lemma printed_counters_match_globals_witness :
  api_call_count
    (state (generate_quiz Sample.loads source_config
              (Sample.env_at 0 0 (Text Sample.quiz_a))
              (initial_state 0 : State string))) = 1.
Proof.
  destruct (printed_counters_match_globals string Sample.loads source_config
              (Sample.env_at 0 0 (Text Sample.quiz_a)) (initial_state 0))
    as (H & _ & _).
  apply (H 1). vm_compute. auto 10.
Defined.

Lemma exhausted_iff_witness :
  response (generate_quiz Sample.loads Sample.tiny_config
              (Sample.env_at 100 0 (Text Sample.quiz_a))
              (exec Sample.loads Sample.tiny_config Sample.failing_day
                 (initial_state 0 : State string))) = Exhausted429.
Proof.
  apply (proj1 (exhausted_iff string Sample.loads Sample.tiny_config
                  (Sample.env_at 100 0 (Text Sample.quiz_a))
                  (exec Sample.loads Sample.tiny_config Sample.failing_day
                     (initial_state 0)))).
  split; [intros H; vm_compute in H; discriminate H|].
  split; [reflexivity|]. split; [reflexivity|].
  right. vm_compute. discriminate.
Defined.

Lemma order_outcome_witness :
  let r := generate_quiz Sample.loads source_config
             (Sample.env_at 0 0 TextRaised) (initial_state 0 : State string) in
  api_call_count (state r) = 1 /\ SERVING_POOL (state r) = [].
Proof.
  cbv zeta.
  destruct (order_outcome string Sample.loads source_config
              (Sample.env_at 0 0 TextRaised) (initial_state 0))
    as (H1 & H2 & _).
  - exists 1. cbn. auto.
  - split; [exact H1|exact H2].
Defined.

Lemma served_quizzes_were_generated_witness :
  In Sample.quiz_b
    (QUIZ_CACHE (exec Sample.loads scenario_config Sample.five_requests
                   (initial_state 0 : State string))).
Proof.
  destruct (served_quizzes_were_generated string Sample.loads scenario_config
              0 Sample.five_requests) as (_ & _ & H).
  apply H. vm_compute. auto.
Defined.

Lemma orders_per_day_are_bounded_witness :
  Z.of_nat (reservations
    (run Sample.loads Sample.tiny_config
       (Sample.failing_day ++ Sample.failing_day)
       (initial_state 0 : State string))) <= 2.
Proof.
  apply (orders_per_day_are_bounded string Sample.loads Sample.tiny_config 0
           (initial_state 0) (Sample.failing_day ++ Sample.failing_day)).
  - cbn. lia.
  - left. split; reflexivity.
  - repeat constructor.
Defined.

Lemma pool_is_served_last_in_first_out_witness :
  let envs := [Sample.env_at 0 5 SendRaised; Sample.env_at 1 6 SendRaised] in
  served (run Sample.loads source_config envs Sample.pooled)
  = [Sample.quiz_b; Sample.quiz_a]
  /\ last_reset_date (exec Sample.loads source_config envs Sample.pooled) = 0.
Proof.
  cbv zeta.
  destruct (pool_is_served_last_in_first_out string Sample.loads source_config
              [Sample.env_at 0 5 SendRaised; Sample.env_at 1 6 SendRaised]
              Sample.pooled [] [Sample.quiz_a; Sample.quiz_b])
    as (H1 & _ & _ & _ & _ & H2).
  - reflexivity.
  - reflexivity.
  - repeat constructor; intros H; vm_compute in H; discriminate H.
  - split; [exact H1|exact H2].
Defined.

Lemma extract_json_recovers_the_object_witness :
  extract_json "Sure: {a{b}c} bye" = Some "{a{b}c}"%string.
Proof.
  apply (extract_json_recovers_the_object "Sure: " "a{b}c" " bye").
  - cbn. intuition discriminate.
  - cbn. intuition discriminate.
Defined.

Lemma crossed_braces_give_the_empty_text_witness :
  extract_json "a}b{c" = Some ""%string.
Proof.
  apply (crossed_braces_give_the_empty_text "a}b{c").
  - cbn. auto.
  - reflexivity.
Defined.

Lemma rejection_counts_admitted_requests_witness :
  rate_limited
    (generate_quiz Sample.loads Sample.tiny_config (Sample.env_at 2 0 SendRaised)
       (exec Sample.loads Sample.tiny_config Sample.two_quick
          (initial_state 0 : State string))).
Proof.
  apply (proj2 (rejection_counts_admitted_requests string Sample.loads
                  Sample.tiny_config 0 Sample.two_quick
                  (Sample.env_at 2 0 SendRaised) ltac:(clock_order))).
  vm_compute. discriminate.
Defined.

Lemma admitted_requests_per_window_are_bounded_witness :
  Z.of_nat (List.length
    (in_window Sample.tiny_config 2
       (admitted_times Sample.loads Sample.tiny_config
          (Sample.two_quick ++ [Sample.env_at 2 0 SendRaised])
          (initial_state 0 : State string)))) <= 2.
Proof.
  apply (admitted_requests_per_window_are_bounded string Sample.loads
           Sample.tiny_config 0 Sample.two_quick
           (Sample.env_at 2 0 SendRaised)).
  - cbn. lia.
  - clock_order.
Defined.

(** ** A full stock *)

(** X17. Once the stock has reached [SET_SIZE] the model is never called
    again: whatever requests follow, on whatever days, none places an
    order and the stock stays exactly as it is, so the service keeps
    handing out the same quizzes. *)
Theorem full_stock_is_final {Quiz : Type} (json_loads : string -> option Quiz)
  (cfg : Config) (envs : list Env) (s : State Quiz) :
  SET_SIZE cfg <= Z.of_nat (List.length (QUIZ_CACHE s)) ->
  Forall (fun r => ~ ordered r) (run json_loads cfg envs s)
  /\ reservations (run json_loads cfg envs s) = 0%nat
  /\ QUIZ_CACHE (exec json_loads cfg envs s) = QUIZ_CACHE s
  /\ api_call_count (exec json_loads cfg envs s) <= Z.max 0 (api_call_count s).
Proof.
  revert s. induction envs as [|e envs IH]; intros s Hfull.
  - cbn. repeat split; [constructor|lia].
  - assert (Hno : ~ ordered (generate_quiz json_loads cfg e s)).
    { rewrite ordered_iff. lia. }
    assert (Hst : QUIZ_CACHE (state (generate_quiz json_loads cfg e s))
                  = QUIZ_CACHE s).
    { destruct (stock_after Quiz json_loads cfg e s) as [E|[Ho _]];
        [exact E|contradiction]. }
    assert (Hc : api_call_count (state (generate_quiz json_loads cfg e s))
                 <= Z.max 0 (api_call_count s)).
    { revert Hno. branches; intros Hno; cbn; try lia.
      all: exfalso; apply Hno; log_true. }
    destruct (IH (state (generate_quiz json_loads cfg e s))) as (I1 & I2 & I3 & I4);
      [rewrite Hst; exact Hfull|].
    cbn [run]. rewrite exec_cons.
    split; [constructor; assumption|]. split.
    + unfold reservations in *. cbn [filter].
      destruct (orderedb (generate_quiz json_loads cfg e s)) eqn:E; [|exact I2].
      apply orderedb_spec in E. contradiction.
    + split; [congruence|lia].
Qed.

Lemma full_stock_is_final_witness :
  let envs := [Sample.env_at 100 1 (Text Sample.quiz_a);
               Sample.env_at 101 2 (Text Sample.quiz_a);
               Sample.env_at 102 3 (Text Sample.quiz_a)] in
  reservations (run Sample.loads scenario_config envs Sample.stocked) = 0%nat
  /\ QUIZ_CACHE (exec Sample.loads scenario_config envs Sample.stocked)
     = [Sample.quiz_a; Sample.quiz_b].
Proof.
  cbv zeta.
  destruct (full_stock_is_final Sample.loads scenario_config
              [Sample.env_at 100 1 (Text Sample.quiz_a);
               Sample.env_at 101 2 (Text Sample.quiz_a);
               Sample.env_at 102 3 (Text Sample.quiz_a)] Sample.stocked)
    as (_ & H1 & H2 & _).
  - cbn. lia.
  - split; [exact H1|exact H2].
Defined.
